(** * A shallow embedding of the SevenTech trace-to-plan compiler
      ([seventech/planner/service.py]), the deterministic replay engine
      ([seventech/executor/service.py]) and the interactive mapping session
      ([seventech/mapper/session.py], [seventech/api/session_manager.py]). *)

From Stdlib Require Import String Ascii List ZArith Bool Lia.
From Stdlib Require Import Numbers.DecimalString Sorting.Sorted.
Import ListNotations.
Open Scope string_scope.

(* ------------------------------------------------------------------ *)
(** ** Python values *)

(** The dynamically typed values the code stores in its dictionaries
    (action parameters, step parameters, metadata). A Python [dict] is an
    association list in insertion order. *)
Set Warnings "-register-all".
Inductive pyval : Type :=
| VNone
| VBool (b : bool)
| VInt (z : Z)
| VStr (s : string)
| VList (l : list pyval)
| VDict (d : list (string * pyval)).

Definition dict := list (string * pyval).

(** [d.get(k)] *)
Fixpoint dget (d : dict) (k : string) : option pyval :=
  match d with
  | [] => None
  | (k', v) :: d' => if String.eqb k k' then Some v else dget d' k
  end.

(** [d.get(k, default)] *)
Definition get_or (d : dict) (k : string) (default : pyval) : pyval :=
  match dget d k with Some v => v | None => default end.

(** [k in d] *)
Definition dmem (d : dict) (k : string) : bool :=
  match dget d k with Some _ => true | None => false end.

(** [d[k] = v]: overwrite in place, or append a new key at the end. *)
Fixpoint dset (d : dict) (k : string) (v : pyval) : dict :=
  match d with
  | [] => [(k, v)]
  | (k', v') :: d' =>
      if String.eqb k k' then (k', v) :: d' else (k', v') :: dset d' k v
  end.

(** Python truthiness. *)
Definition truthy (v : pyval) : bool :=
  match v with
  | VNone => false
  | VBool b => b
  | VInt z => negb (Z.eqb z 0)
  | VStr s => negb (String.eqb s "")
  | VList l => match l with [] => false | _ => true end
  | VDict d => match d with [] => false | _ => true end
  end.

(** [a or b]: the first truthy operand, else the last one. *)
Definition py_or (a b : pyval) : pyval := if truthy a then a else b.

(** [==] on the scalar values that occur as indices and parameter values
    ([bool] is a subclass of [int] in Python). Containers never occur in
    these positions and are compared unequal. *)
Definition py_eq (a b : pyval) : bool :=
  match a, b with
  | VNone, VNone => true
  | VBool x, VBool y => Bool.eqb x y
  | VInt x, VInt y => Z.eqb x y
  | VBool x, VInt y | VInt y, VBool x => Z.eqb y (if x then 1 else 0)%Z
  | VStr x, VStr y => String.eqb x y
  | _, _ => false
  end.

Definition Z_to_string (z : Z) : string :=
  NilEmpty.string_of_int (Z.to_int z).

(** [str(v)] (when [quoted] is false) and [repr(v)] (when it is true);
    strings are shown between single quotes by [repr] (escape sequences are
    not modelled). *)
Fixpoint py_show (quoted : bool) (v : pyval) : string :=
  match v with
  | VNone => "None"
  | VBool true => "True"
  | VBool false => "False"
  | VInt z => Z_to_string z
  | VStr s => if quoted then "'" ++ s ++ "'" else s
  | VList l =>
      "[" ++ String.concat ", " (map (py_show true) l) ++ "]"
  | VDict d =>
      "{" ++ String.concat ", "
               (map (fun kv => "'" ++ fst kv ++ "': " ++ py_show true (snd kv)) d)
          ++ "}"
  end.

Definition py_str (v : pyval) : string := py_show false v.

(** A field the browser-use action schema types as [str]. *)
Definition as_str (v : pyval) : string :=
  match v with VStr s => s | _ => py_str v end.

(* ------------------------------------------------------------------ *)
(** ** Strings *)

(** A [string] of this development is a Python [str] whose code points
    are all below 256: each character stands for the Latin-1 code point
    of the same number ([ascii_code]). *)

Definition ascii_code (c : ascii) : nat := nat_of_ascii c.

Definition is_digit (c : ascii) : bool :=
  Nat.leb 48 (ascii_code c) && Nat.leb (ascii_code c) 57.
Definition is_upper (c : ascii) : bool :=
  Nat.leb 65 (ascii_code c) && Nat.leb (ascii_code c) 90.
Definition is_lower (c : ascii) : bool :=
  Nat.leb 97 (ascii_code c) && Nat.leb (ascii_code c) 122.

(** Regex [\w] of a [str] pattern (Unicode word characters: those of
    [str.isalnum()], and [_]) on code points below 256: [0-9], [A-Z], [_],
    [a-z], [ª], [²], [³], [µ], [¹], [º], [¼-¾], [À-Ö], [Ø-ö] and [ø-ÿ]. *)
Definition is_word (c : ascii) : bool :=
  let n := ascii_code c in
  is_digit c || is_upper c || is_lower c || Ascii.eqb c "_"%char
  || Nat.eqb n 170 || (Nat.leb 178 n && Nat.leb n 179) || Nat.eqb n 181
  || (Nat.leb 185 n && Nat.leb n 186) || (Nat.leb 188 n && Nat.leb n 190)
  || (Nat.leb 192 n && negb (Nat.eqb n 215) && negb (Nat.eqb n 247)).

(** [s.startswith(p)] *)
Fixpoint starts_with (p s : string) : bool :=
  match p, s with
  | EmptyString, _ => true
  | String c p', String d s' => Ascii.eqb c d && starts_with p' s'
  | String _ _, EmptyString => false
  end.

(** [p in s] (substring test) *)
Fixpoint contains (p s : string) : bool :=
  starts_with p s ||
  match s with
  | EmptyString => false
  | String _ s' => contains p s'
  end.

(** Lexicographic order on strings, as Python's [sorted] on [str]. *)
Fixpoint str_ltb (a b : string) : bool :=
  match a, b with
  | EmptyString, EmptyString => false
  | EmptyString, String _ _ => true
  | String _ _, EmptyString => false
  | String c a', String d b' =>
      if Nat.ltb (ascii_code c) (ascii_code d) then true
      else if Nat.eqb (ascii_code c) (ascii_code d) then str_ltb a' b'
      else false
  end.

Fixpoint insert_sorted (x : string) (l : list string) : list string :=
  match l with
  | [] => [x]
  | y :: l' => if str_ltb y x then y :: insert_sorted x l' else x :: l
  end.

Definition sort_strings (l : list string) : list string :=
  fold_right insert_sorted [] l.

(** A Python [set] built by successive [add]s, listed in first-insertion
    order. *)
Fixpoint dedup_acc (seen : list string) (l : list string) : list string :=
  match l with
  | [] => rev seen
  | x :: l' =>
      if existsb (String.eqb x) seen then dedup_acc seen l' else dedup_acc (x :: seen) l'
  end.

Definition dedup (l : list string) : list string := dedup_acc [] l.

(* ------------------------------------------------------------------ *)
(** ** The regular expressions of the planner *)

(** The regular expressions the planner searches with are sequences of
    word-boundary assertions and repeated character classes. A match of an
    atom list at a position is described by the list of its possible end
    positions (all backtracking alternatives). *)
Inductive atom : Type :=
| ABound                                           (* \b *)
| AClass (p : ascii -> bool) (lo : nat) (hi : option nat).  (* [..]{lo,hi} *)

Definition char_at (s : list ascii) (i : nat) : option ascii := nth_error s i.

Definition word_at (s : list ascii) (i : nat) : bool :=
  match char_at s i with Some c => is_word c | None => false end.

Definition at_boundary (s : list ascii) (i : nat) : bool :=
  let before := match i with O => false | S j => word_at s j end in
  xorb before (word_at s i).

Fixpoint run_len (p : ascii -> bool) (s : list ascii) : nat :=
  match s with
  | [] => O
  | c :: s' => if p c then S (run_len p s') else O
  end.

Fixpoint match_ends (r : list atom) (s : list ascii) (i : nat) : list nat :=
  match r with
  | [] => [i]
  | ABound :: r' => if at_boundary s i then match_ends r' s i else []
  | AClass p lo hi :: r' =>
      let k := run_len p (skipn i s) in
      let top := match hi with Some h => Nat.min h k | None => k end in
      flat_map (fun j => match_ends r' s (i + j)) (seq lo (S top - lo))
  end.

(** [re.search(r, text) is not None] *)
Definition re_search (r : list atom) (text : string) : bool :=
  let s := list_ascii_of_string text in
  existsb (fun i => match match_ends r s i with [] => false | _ => true end)
          (seq 0 (S (List.length s))).

Definition is_char (c : ascii) : ascii -> bool := Ascii.eqb c.
Definition one (p : ascii -> bool) : atom := AClass p 1 (Some 1).
Definition opt (p : ascii -> bool) : atom := AClass p 0 (Some 1).
Definition digits (n : nat) : atom := AClass is_digit n (Some n).
Definition is_alnum (c : ascii) : bool := is_digit c || is_upper c || is_lower c.

(** [r'\b\d{3}[-.]?\d{3}[-.]?\d{4}\b']  (phone numbers) *)
Definition re_phone : list atom :=
  let sep c := is_char "-" c || is_char "." c in
  [ABound; digits 3; opt sep; digits 3; opt sep; digits 4; ABound].

(** [r'\b[A-Za-z0-9._%+-]+@[A-Za-z0-9.-]+\.[A-Z|a-z]{2,}\b']  (emails) *)
Definition re_email : list atom :=
  [ABound;
   AClass (fun c => is_alnum c || is_char "." c || is_char "_" c || is_char "%" c
                    || is_char "+" c || is_char "-" c) 1 None;
   one (is_char "@");
   AClass (fun c => is_alnum c || is_char "." c || is_char "-" c) 1 None;
   one (is_char ".");
   AClass (fun c => is_upper c || is_char "|" c || is_lower c) 2 None;
   ABound].

(** [r'\b\d{3}\.?\d{3}\.?\d{3}-?\d{2}\b']  (CPF) *)
Definition re_cpf : list atom :=
  [ABound; digits 3; opt (is_char "."); digits 3; opt (is_char ".");
   digits 3; opt (is_char "-"); digits 2; ABound].

(** [r'\b\d{5}-?\d{3}\b']  (CEP) *)
Definition re_cep : list atom :=
  [ABound; digits 5; opt (is_char "-"); digits 3; ABound].

(** [Planner._should_parameterize] *)
Definition should_parameterize (text : string) : bool :=
  existsb (fun r => re_search r text) [re_phone; re_email; re_cpf; re_cep].

(** [re.search(prefix ++ "([^']+)'", s)], returning group 1: the leftmost
    position where [prefix] is followed by a non-empty run of non-quote
    characters and a quote. *)
Fixpoint search_quoted (fuel : nat) (prefix s : string) : option string :=
  match fuel with
  | O => None
  | S fuel' =>
      let after := substring (String.length prefix) (String.length s) s in
      let body := string_of_list_ascii
                    (firstn (run_len (fun c => negb (is_char "'" c)) (list_ascii_of_string after))
                            (list_ascii_of_string after)) in
      if starts_with prefix s
         && negb (String.eqb body "")
         && starts_with "'" (substring (String.length body) (String.length after) after)
      then Some body
      else match s with
           | EmptyString => None
           | String _ s' => search_quoted fuel' prefix s'
           end
  end.

(** [Planner._extract_param_name] *)
Definition extract_param_name (xpath : string) : string :=
  let by_id :=
    if contains "id=" xpath then search_quoted (S (String.length xpath)) "id='" xpath else None in
  match by_id with
  | Some n => n
  | None =>
      let by_name :=
        if contains "name=" xpath then search_quoted (S (String.length xpath)) "name='" xpath
        else None in
      match by_name with Some n => n | None => "user_input" end
  end.





(* ------------------------------------------------------------------ *)
(** ** Shared data model ([seventech/shared_views.py]) *)

Inductive action_type : Type :=
| GOTO | CLICK | INPUT | SELECT | SCROLL | WAIT | EXTRACT | SCREENSHOT
| DOWNLOAD | UPLOAD.

Scheme Equality for action_type.

(** [PlanStep]; the human-readable [description] produced by
    [_generate_step_description] is not modelled. *)
Record plan_step : Type := {
  sequence_id : nat;
  action : action_type;
  params : dict;
  original_action : string;
  original_params : dict
}.

(** [PlanMetadata]; ids, name and timestamps are not modelled. *)
Record plan_metadata : Type := {
  pm_description : string;
  pm_url : option pyval;
  pm_required_params : list string;
  pm_tags : list string;
  pm_expected_output : option pyval
}.

Record plan : Type := {
  metadata : plan_metadata;
  steps : list plan_step
}.

Inductive exc : Type :=
| ValueError (msg : string)
| RuntimeError (msg : string)
| TimeoutError (msg : string)
| OtherException (msg : string).

Definition exc_str (e : exc) : string :=
  match e with
  | ValueError m | RuntimeError m | TimeoutError m | OtherException m => m
  end.

(** The result of a Python call: a value, an [Exception] (caught by
    [except Exception]), or an interruption deriving only from
    [BaseException] (for instance [asyncio.CancelledError]), which
    [except Exception] does not catch. *)
Inductive outcome (A : Type) : Type :=
| Returned (a : A)
| Raised (e : exc)
| Interrupted.
Arguments Returned {A} a.
Arguments Raised {A} e.
Arguments Interrupted {A}.

(* ------------------------------------------------------------------ *)
(** ** Serialized agent history ([Mapper._serialize_history]) *)

(** One recorded action: [{"action_name": {params}}]. *)
Definition agent_action := list (string * dict).

(** A history item: its [state] (when it is a non-empty dict) with the
    [selector_map] it carries (index -> node info), and the [action] list of
    its [model_output] (when [model_output] is truthy). *)
Record history_item : Type := {
  hi_state : option (list (Z * pyval));
  hi_model_output : option (list agent_action)
}.

(** [raw_history]: its ["history"] list (when the key is present) and the
    other keys it holds ([final_result], [errors]). *)
Record raw_history : Type := {
  rh_history : option (list history_item);
  rh_other_keys : list (string * pyval)
}.

Definition rh_items (rh : raw_history) : list history_item :=
  match rh_history rh with Some l => l | None => [] end.

Definition rh_truthy (rh : raw_history) : bool :=
  match rh_history rh, rh_other_keys rh with
  | None, [] => false
  | _, _ => true
  end.

(** The keys of [MapperResult.metadata] the planner reads. *)
Record mapper_metadata : Type := {
  md_collected_parameters : dict;   (* default {} *)
  md_parameter_names : list string; (* default [] *)
  md_result_location : option dict; (* None when absent or None *)
  md_starting_url : option pyval;
  md_tags : list string
}.

Record mapper_result : Type := {
  mr_objective : string;
  mr_success : bool;
  mr_raw_history : option raw_history;
  mr_error_message : option string;
  mr_metadata : mapper_metadata
}.

Definition opt_truthy (d : option dict) : bool :=
  match d with Some (_ :: _) => true | _ => false end.

(* ------------------------------------------------------------------ *)
(** ** The planner ([seventech/planner/service.py]) *)

(** [int] keys of [selector_map] matched by [target_index in selector_map]. *)
Definition py_int_key (v : pyval) : option Z :=
  match v with
  | VInt z => Some z
  | VBool b => Some (if b then 1 else 0)%Z
  | _ => None
  end.

Fixpoint zlookup {A} (m : list (Z * A)) (k : Z) : option A :=
  match m with
  | [] => None
  | (k', v) :: m' => if Z.eqb k k' then Some v else zlookup m' k
  end.

Definition snapshot_hit (target : pyval) (it : history_item) : option pyval :=
  match hi_state it, py_int_key target with
  | Some sm, Some k => zlookup sm k
  | _, _ => None
  end.

Definition actions_of (it : history_item) : list agent_action :=
  match hi_model_output it with Some l => l | None => [] end.

(** [value or innerText or textContent or node_value] *)
Definition node_text_content (ni : dict) : pyval :=
  py_or (get_or ni "value" VNone)
    (py_or (get_or ni "innerText" VNone)
       (py_or (get_or ni "textContent" VNone) (get_or ni "node_value" VNone))).

(** The body of the [if isinstance(node_info, dict)] branch of
    [_enrich_result_location_with_xpath]. *)
Definition enrich_from_node (enriched ni : dict) : dict :=
  let e1 := if dmem ni "xpath" && truthy (get_or ni "xpath" VNone)
            then dset enriched "xpath" (get_or ni "xpath" VNone) else enriched in
  let tc := node_text_content ni in
  let e2 := if truthy tc then dset e1 "text_content" tc else e1 in
  let e3 :=
    match dget ni "attributes" with
    | Some (VDict attrs) =>
        let a1 := if truthy (get_or attrs "id" VNone)
                  then dset e2 "element_id" (get_or attrs "id" VNone) else e2 in
        let a2 := if truthy (get_or attrs "class" VNone)
                  then dset a1 "element_class" (get_or attrs "class" VNone) else a1 in
        if truthy (get_or attrs "name" VNone)
        then dset a2 "element_name" (get_or attrs "name" VNone) else a2
    | _ => e2
    end in
  match dget ni "tag_name" with
  | Some t => dset e3 "tag_name" t
  | None => e3
  end.

(** The scan of one item's actions for an xpath used with the target index. *)
Definition enrich_from_actions (target : pyval) (acts : list agent_action) (enriched : dict) : dict :=
  fold_left
    (fun e (a : agent_action) =>
       match a with
       | [] => e
       | (_, ap) :: _ =>
           if py_eq (get_or ap "index" VNone) target then
             if dmem ap "xpath" && truthy (get_or ap "xpath" VNone) && negb (dmem e "xpath")
             then dset e "xpath" (get_or ap "xpath" VNone) else e
           else e
       end)
    acts enriched.

Fixpoint enrich_loop (target : pyval) (items : list history_item) (enriched : dict) : dict :=
  match items with
  | [] => enriched
  | it :: rest =>
      match snapshot_hit target it with
      | Some (VDict ni) => enrich_from_node enriched ni
      | _ => enrich_loop target rest (enrich_from_actions target (actions_of it) enriched)
      end
  end.

(** [Planner._enrich_result_location_with_xpath] *)
Definition enrich_result_location (rh : raw_history) (rl : dict) : dict :=
  match dget rl "index" with
  | None | Some VNone => rl
  | Some target => enrich_loop target (rh_items rh) rl
  end.

(** [Planner._find_parameter_by_value]: [collected_params] is
    [ParameterCollector.to_dict()], whose ["parameters"] list holds
    [CollectedParameter.model_dump()] dicts. *)
Definition find_parameter_by_value (value : string) (collected : dict) : pyval :=
  if String.eqb value "" || negb (truthy (VDict collected)) then VNone
  else
    let plist := match get_or collected "parameters" (VList []) with
                 | VList l => l | _ => [] end in
    let fix scan (l : list pyval) : pyval :=
      match l with
      | [] => VNone
      | VDict p :: l' =>
          if String.eqb (py_str (get_or p "value" (VStr ""))) value
          then get_or p "name" VNone else scan l'
      | _ :: l' => scan l'
      end in
    scan plist.

Definition placeholder (name : string) : string := "{param:" ++ name ++ "}".

(** [Planner._convert_params]; [result_location] is the (possibly
    enriched) marker, [None] when it was never set. *)
Definition convert_params (at_ : action_type) (op : dict) (collected : dict)
    (result_location : option dict) : dict :=
  match at_ with
  | GOTO => [("url", get_or op "url" (VStr ""))]
  | CLICK =>
      [("index", get_or op "index" (VInt 0)); ("xpath", get_or op "xpath" (VStr ""))]
  | INPUT =>
      let text := as_str (get_or op "text" (VStr "")) in
      let base := [("index", get_or op "index" (VInt 0)); ("xpath", get_or op "xpath" (VStr ""))] in
      let param_name := find_parameter_by_value text collected in
      if truthy param_name then
        (base ++ [("text", VStr (placeholder (py_str param_name))); ("is_parameterized", VBool true)])%list
      else
        (base ++ [("text", VStr text); ("is_parameterized", VBool (should_parameterize text))])%list
  | SELECT =>
      [("index", get_or op "index" (VInt 0)); ("value", get_or op "value" (VStr ""));
       ("xpath", get_or op "xpath" (VStr ""))]
  | SCROLL =>
      [("direction", get_or op "direction" (VStr "down")); ("amount", get_or op "amount" (VInt 500))]
  | WAIT => [("duration_ms", get_or op "duration" (VInt 1000))]
  | EXTRACT =>
      if opt_truthy result_location then
        let rl := match result_location with Some d => d | None => [] end in
        let q := get_or rl "description" (VStr "") in
        let q := if truthy (get_or op "query" VNone) then get_or op "query" VNone else q in
        [("query", q); ("is_final_result", VBool true)]
      else
        [("query", get_or op "query" (VStr "")); ("is_final_result", VBool false)]
  | SCREENSHOT => [("full_page", get_or op "full_page" (VBool false))]
  | DOWNLOAD | UPLOAD => []
  end.

(** The [action_mapping] table of [_convert_action_to_step]. *)
Definition action_mapping (name : string) : option action_type :=
  if String.eqb name "navigate" then Some GOTO
  else if String.eqb name "click" then Some CLICK
  else if String.eqb name "input" then Some INPUT
  else if String.eqb name "select" then Some SELECT
  else if String.eqb name "scroll" then Some SCROLL
  else if String.eqb name "wait" then Some WAIT
  else if String.eqb name "extract" then Some EXTRACT
  else if String.eqb name "screenshot" then Some SCREENSHOT
  else None.

(** [Planner._convert_action_to_step] *)
Definition convert_action_to_step (a : agent_action) (sid : nat) (collected : dict)
    (result_location : option dict) : option plan_step :=
  match a with
  | [] => None
  | (name, ap) :: _ =>
      if String.eqb name "mark_result_location" then None
      else match action_mapping name with
           | None => None
           | Some at_ =>
               Some {| sequence_id := sid; action := at_;
                       params := convert_params at_ ap collected result_location;
                       original_action := name; original_params := ap |}
           end
  end.

(** The two nested loops of [_extract_steps]: [acc] holds the steps built
    so far, in reverse; the next sequence id is [length acc]. *)
Definition extract_from_actions (collected : dict) (rl : option dict)
    (acts : list agent_action) (acc : list plan_step) : list plan_step :=
  fold_left
    (fun acc a =>
       match convert_action_to_step a (List.length acc) collected rl with
       | Some st => st :: acc
       | None => acc
       end)
    acts acc.

Definition extract_from_items (collected : dict) (rl : option dict)
    (items : list history_item) : list plan_step :=
  rev (fold_left
         (fun acc it =>
            match hi_model_output it with
            | None => acc
            | Some acts => extract_from_actions collected rl acts acc
            end)
         items []).

(** [Planner._extract_steps] *)
Definition extract_steps (rh : raw_history) (collected : dict) (result_location : option dict)
    : list plan_step :=
  let rl :=
    match result_location with
    | Some d =>
        if opt_truthy result_location && negb (truthy (get_or d "xpath" VNone))
        then Some (enrich_result_location rh d) else result_location
    | None => None
    end in
  extract_from_items collected rl (rh_items rh).

Definition is_parameterized_input (st : plan_step) : bool :=
  action_type_beq (action st) INPUT && truthy (get_or (params st) "is_parameterized" VNone).

(** [Planner._identify_parameters]: [sorted(list(set(...)))]. *)
Definition identify_parameters (sts : list plan_step) : list string :=
  sort_strings
    (dedup (map (fun st => extract_param_name (as_str (get_or (params st) "xpath" (VStr ""))))
                (filter is_parameterized_input sts))).

Section CreatePlan.

(** [list(set(l))]: CPython lists a set of strings in an order fixed by
    string hashing, which is randomised per process. The embedding is
    parametric in that order: any duplicate-free listing of the elements. *)
Variable list_of_set : list string -> list string.

(** [Planner.create_plan] *)
Definition create_plan (mr : mapper_result) : outcome plan :=
  if negb (mr_success mr) then
    Raised (ValueError ("Cannot create plan from failed mapping: "
                        ++ match mr_error_message mr with Some m => m | None => "None" end))
  else
    match mr_raw_history mr with
    | None => Raised (ValueError "Mapper result contains no history data")
    | Some rh =>
        if negb (rh_truthy rh) then Raised (ValueError "Mapper result contains no history data")
        else
          let md := mr_metadata mr in
          let rl := md_result_location md in
          let sts := extract_steps rh (md_collected_parameters md) rl in
          let auto := identify_parameters sts in
          let required := list_of_set (auto ++ md_parameter_names md)%list in
          let expected := if opt_truthy rl
                          then match rl with Some d => dget d "description" | None => None end
                          else None in
          Returned {| metadata := {| pm_description := mr_objective mr;
                                     pm_url := md_starting_url md;
                                     pm_required_params := required;
                                     pm_tags := md_tags md;
                                     pm_expected_output := expected |};
                      steps := sts |}
    end.

End CreatePlan.

(** A listing of [set(l)] satisfying the hypotheses the theorems place on
    [list_of_set]: first-insertion order. *)
Definition set_in_insertion_order (l : list string) : list string := dedup l.

(** The scenario of the specification: navigate, then type the collected
    "inscricao" value into the element whose xpath carries [@id='insc']. *)
Definition insc_item_nav : history_item :=
  {| hi_state := None;
     hi_model_output := Some [[("navigate", [("url", VStr "https://x")])]] |}.

Definition insc_item_input : history_item :=
  {| hi_state := None;
     hi_model_output :=
       Some [[("input", [("index", VInt 3); ("text", VStr "0.000.001-8");
                         ("xpath", VStr ".../*[@id='insc']")])]] |}.

Definition insc_collected : dict :=
  [("parameters", VList [VDict [("name", VStr "inscricao"); ("label", VStr "Inscricao");
                                ("value", VStr "0.000.001-8")]]);
   ("count", VInt 1)].

Definition insc_mapper_result : mapper_result :=
  {| mr_objective := "consultar IPTU";
     mr_success := true;
     mr_raw_history := Some {| rh_history := Some [insc_item_nav; insc_item_input];
                               rh_other_keys := [("final_result", VNone); ("errors", VList [])] |};
     mr_error_message := None;
     mr_metadata := {| md_collected_parameters := insc_collected;
                       md_parameter_names := ["inscricao"];
                       md_result_location := None;
                       md_starting_url := Some (VStr "https://x");
                       md_tags := [] |} |}.

Definition outcome_map {A B} (f : A -> B) (o : outcome A) : outcome B :=
  match o with
  | Returned a => Returned (f a)
  | Raised e => Raised e
  | Interrupted => Interrupted
  end.


(* ------------------------------------------------------------------ *)
(** ** The executor ([seventech/executor/service.py]) *)

(** [s[n:]] *)
Fixpoint sdrop (n : nat) (s : string) : string :=
  match n, s with
  | O, _ => s
  | S _, EmptyString => EmptyString
  | S n', String _ s' => sdrop n' s'
  end.

(** Greedy [\w+]-style split: the longest prefix of word characters and the
    rest. *)
Fixpoint word_split (s : string) : string * string :=
  match s with
  | EmptyString => (EmptyString, EmptyString)
  | String c s' =>
      if is_word c then let (w, r) := word_split s' in (String c w, r)
      else (EmptyString, s)
  end.

(** A match of [r'\{param:(\w+)\}'] at the start of [s]: group 1 and the
    text after the match. *)
Definition param_at (s : string) : option (string * string) :=
  if starts_with "{param:" s then
    let (n, r) := word_split (sdrop 7 s) in
    match r with
    | String c r' =>
        if Ascii.eqb c "}" && negb (String.eqb n "") then Some (n, r') else None
    | EmptyString => None
    end
  else None.

(** [re.findall(r'\{param:(\w+)\}', s)]: leftmost, non-overlapping. *)
Fixpoint findall_aux (fuel : nat) (s : string) : list string :=
  match fuel with
  | O => []
  | S fuel' =>
      match s with
      | EmptyString => []
      | String _ s' =>
          match param_at s with
          | Some (n, r) => n :: findall_aux fuel' r
          | None => findall_aux fuel' s'
          end
      end
  end.

Definition findall_params (s : string) : list string := findall_aux (String.length s) s.

(** [s.replace(old, new)]: all non-overlapping occurrences, left to right
    ([old] is never empty at the call sites). *)
Fixpoint replace_aux (fuel : nat) (old new s : string) : string :=
  match fuel with
  | O => s
  | S fuel' =>
      match s with
      | EmptyString => EmptyString
      | String c s' =>
          if starts_with old s
          then new ++ replace_aux fuel' old new (sdrop (String.length old) s)
          else String c (replace_aux fuel' old new s')
      end
  end.

Definition py_replace (s old new : string) : string :=
  replace_aux (String.length s) old new s.

(** The body of the [for param_name in matches] loop. *)
Definition inject_one (user : dict) (value : string) (param_name : string) : string :=
  match dget user param_name with
  | Some uv => py_replace value (placeholder param_name) (py_str uv)
  | None => value
  end.

(** [Executor._inject_params] *)
Definition inject_params (step_params user : dict) : dict :=
  map (fun kv =>
         match snd kv with
         | VStr s =>
             if contains "{param:" s
             then (fst kv, VStr (fold_left (inject_one user) (findall_params s) s))
             else kv
         | _ => kv
         end)
      step_params.

(** A node of the current [selector_map] (browser-use's
    [EnhancedDOMTreeNode]): its attributes, [node_value], [xpath] and
    [tag_name]. *)
Record dom_node : Type := {
  node_attributes : list (string * string);
  node_value : string;
  node_xpath : string;
  node_tag_name : string
}.

Fixpoint sget (d : list (string * string)) (k : string) : option string :=
  match d with
  | [] => None
  | (k', v) :: d' => if String.eqb k k' then Some v else sget d' k
  end.

Definition sget_or (d : list (string * string)) (k : string) : string :=
  match sget d k with Some v => v | None => "" end.

Definition opt_str_eqb (a : option string) (b : string) : bool :=
  match a with Some x => String.eqb x b | None => false end.

(** [a or b] on strings. *)
Definition str_or (a b : string) : string := if String.eqb a "" then b else a.

(** The text strategy's [node_text]. *)
Definition node_text (n : dom_node) : string :=
  let from_attrs :=
    match node_attributes n with
    | [] => ""
    | attrs => str_or (sget_or attrs "value")
                 (str_or (sget_or attrs "innerText") (sget_or attrs "textContent"))
    end in
  str_or from_attrs (node_value n).

(** Scores [len(expected) / max(len(node_text), 1)] are kept as exact
    fractions (numerator, denominator); Python compares the rounded
    floating-point quotients. *)
Definition score_gt (a b : nat * nat) : bool :=
  Nat.ltb (fst b * snd a) (fst a * snd b).

(** The text-similarity loop: the first candidate with the best score. *)
Definition best_text_match (expected : string) (sm : list (Z * dom_node))
    : option (Z * dom_node) * (nat * nat) :=
  fold_left
    (fun acc (kn : Z * dom_node) =>
       let t := node_text (snd kn) in
       if negb (String.eqb t "") && (contains expected t || contains t expected) then
         let sc := (String.length expected, Nat.max (String.length t) 1) in
         if score_gt sc (snd acc) then (Some kn, sc) else acc
       else acc)
    sm (None, (0, 1)).

Definition find_in_map (p : dom_node -> bool) (sm : list (Z * dom_node)) : option dom_node :=
  match find (fun kn => p (snd kn)) sm with Some (_, n) => Some n | None => None end.

Definition has_attrs (n : dom_node) : bool :=
  match node_attributes n with [] => false | _ => true end.

Definition not_found_message (index : pyval) (element_id xpath expected_text : string) : string :=
  "Element not found after trying all strategies:" ++ String "010" EmptyString
  ++ "  - index: " ++ py_str index ++ String "010" EmptyString
  ++ (if String.eqb element_id "" then ""
      else "  - element_id: " ++ element_id ++ String "010" EmptyString)
  ++ (if String.eqb xpath "" then ""
      else "  - xpath: " ++ substring 0 100 xpath ++ "..." ++ String "010" EmptyString)
  ++ (if String.eqb expected_text "" then ""
      else "  - expected_text: " ++ substring 0 100 expected_text ++ "..." ++ String "010" EmptyString).

(** [Executor._find_element]: [selector_map] is the freshly queried
    ([cached=False]) map, [None] when there is no DOM state;
    [element_by_index] is [browser.get_element_by_index]. The planner stores
    strings under the locator keys. *)
Definition find_element (selector_map : option (list (Z * dom_node)))
    (element_by_index : pyval -> option dom_node) (ps : dict) : outcome dom_node :=
  let index := get_or ps "index" (VInt 0) in
  let xpath := as_str (get_or ps "xpath" (VStr "")) in
  let element_id := as_str (get_or ps "element_id" (VStr "")) in
  let element_class := as_str (get_or ps "element_class" (VStr "")) in
  let tag_name := as_str (get_or ps "tag_name" (VStr "")) in
  let expected_text := as_str (get_or ps "expected_text" (VStr "")) in
  match selector_map with
  | None | Some [] => Raised (ValueError "No DOM state available")
  | Some sm =>
      match element_by_index index with
      | Some node => Returned node
      | None =>
      match (if String.eqb element_id "" then None
             else find_in_map (fun n => has_attrs n
                                 && opt_str_eqb (sget (node_attributes n) "id") element_id) sm) with
      | Some node => Returned node
      | None =>
      match (if String.eqb xpath "" then None
             else find_in_map (fun n => String.eqb (node_xpath n) xpath) sm) with
      | Some node => Returned node
      | None =>
      match (if String.eqb expected_text "" then None
             else match best_text_match expected_text sm with
                  | (Some (_, n), sc) => if score_gt sc (3, 10) then Some n else None
                  | (None, _) => None
                  end) with
      | Some node => Returned node
      | None =>
      match (if String.eqb tag_name "" || String.eqb element_class "" then None
             else find_in_map (fun n => String.eqb (node_tag_name n) tag_name && has_attrs n
                                 && opt_str_eqb (sget (node_attributes n) "class") element_class) sm) with
      | Some node => Returned node
      | None => Raised (ValueError (not_found_message index element_id xpath expected_text))
      end end end end end
  end.

Inductive artifact_type : Type := TEXT | IMAGE | PDF | FILE | JSON | SCREENSHOT_ART.

Record artifact : Type := {
  art_type : artifact_type;
  art_name : string;
  art_content : option string;
  art_metadata : dict
}.

Inductive execution_status : Type :=
| SUCCESS | PARTIAL_SUCCESS | FAILURE | TIMEOUT | ERROR.

(** [ExecutionResult]; ids and timings are not modelled. *)
Record execution_result : Type := {
  er_status : execution_status;
  er_artifacts : list artifact;
  er_steps_completed : nat;
  er_total_steps : nat;
  er_error_message : option string
}.

(** [ExecutorConfig] *)
Record executor_config : Type := {
  headless : bool;
  save_screenshots : bool;
  screenshot_on_error : bool;
  retry_on_error : bool
}.

Definition default_config : executor_config :=
  {| headless := true; save_screenshots := true; screenshot_on_error := true;
     retry_on_error := true |}.

(** The events the browser session's event bus receives. *)
Inductive browser_event : Type :=
| NavigateToUrl (url : pyval)
| ClickElement (n : dom_node)
| TypeText (n : dom_node) (text : pyval)
| ScrollPage (direction amount : pyval)
| TakeScreenshot.

(** Observable trace of a run: browser lifecycle, step attempts and pauses. *)
Inductive event : Type :=
| EvStart
| EvStop
| EvAttempt (sid : nat) (injected : dict)
| EvPause (ms : Z).

Section Executor.

(** The page-model resource: a browser session with its state. *)
Variable B : Type.
(** [browser.get_browser_state_summary(cached=False).dom_state.selector_map] *)
Variable dom_state : B -> option (list (Z * dom_node)).
(** [browser.get_element_by_index] *)
Variable element_by_index : B -> pyval -> option dom_node.
(** [browser.event_bus.dispatch(ev)] followed by [event.event_result(raise_if_any=True)]. *)
Variable dispatch : B -> browser_event -> outcome (option string) * B.
(** [asyncio.sleep(ms / 1000)]: the page may keep changing meanwhile. *)
Variable sleep : B -> Z -> B.
(** The [EXTRACT] branch (semantic extraction with its whole-page fallback),
    producing its text artifact. *)
Variable extract : B -> dict -> outcome artifact * B.
(** [browser.start()] and [browser.stop()] *)
Variable start stop : B -> outcome unit * B.

Definition screenshot_artifact (content : string) : artifact :=
  {| art_type := SCREENSHOT_ART; art_name := "screenshot.png"; art_content := Some content;
     art_metadata := [] |}.

(** The trailing [if config.save_screenshots and action != SCREENSHOT] block. *)
Definition after_action (cfg : executor_config) (at_ : action_type) (b : B) (arts : list artifact)
    : outcome (list artifact) * B :=
  if save_screenshots cfg && negb (action_type_beq at_ SCREENSHOT) then
    match dispatch b TakeScreenshot with
    | (Returned (Some c), b') =>
        if String.eqb c "" then (Returned arts, b') else (Returned (arts ++ [screenshot_artifact c])%list, b')
    | (Returned None, b') => (Returned arts, b')
    | (Raised e, b') => (Raised e, b')
    | (Interrupted, b') => (Interrupted, b')
    end
  else (Returned arts, b).

(** Dispatch an event and then wait [ms]. *)
Definition dispatch_then_sleep (b : B) (ev : browser_event) (ms : Z) : outcome unit * B :=
  match dispatch b ev with
  | (Returned _, b') => (Returned tt, sleep b' ms)
  | (Raised e, b') => (Raised e, b')
  | (Interrupted, b') => (Interrupted, b')
  end.

Definition resolve_then (b : B) (ps : dict) (k : dom_node -> outcome unit * B) : outcome unit * B :=
  match find_element (dom_state b) (element_by_index b) ps with
  | Returned n => k n
  | Raised e => (Raised e, b)
  | Interrupted => (Interrupted, b)
  end.

(** [Executor._execute_action]; [SELECT], [DOWNLOAD] and [UPLOAD] have no
    branch there and only reach the trailing screenshot. *)
Definition execute_action (cfg : executor_config) (b : B) (at_ : action_type) (ps : dict)
    : outcome (list artifact) * B :=
  let unit_then (r : outcome unit * B) :=
    match r with
    | (Returned _, b') => after_action cfg at_ b' []
    | (Raised e, b') => (Raised e, b')
    | (Interrupted, b') => (Interrupted, b')
    end in
  match at_ with
  | GOTO => unit_then (dispatch_then_sleep b (NavigateToUrl (get_or ps "url" (VStr ""))) 2000)
  | CLICK => unit_then (resolve_then b ps (fun n => dispatch_then_sleep b (ClickElement n) 1000))
  | INPUT =>
      unit_then (resolve_then b ps
                   (fun n => dispatch_then_sleep b (TypeText n (get_or ps "text" (VStr ""))) 500))
  | SCROLL =>
      unit_then (dispatch_then_sleep b
                   (ScrollPage (get_or ps "direction" (VStr "down")) (get_or ps "amount" (VInt 500))) 500)
  | WAIT =>
      match get_or ps "duration_ms" (VInt 1000) with
      | VInt ms => unit_then (Returned tt, sleep b ms)
      | _ => (Raised (OtherException "unsupported operand type(s) for /"), b)
      end
  | SCREENSHOT =>
      match dispatch b TakeScreenshot with
      | (Returned (Some c), b') =>
          if String.eqb c "" then after_action cfg at_ b' []
          else after_action cfg at_ b' [screenshot_artifact c]
      | (Returned None, b') => after_action cfg at_ b' []
      | (Raised e, b') => (Raised e, b')
      | (Interrupted, b') => (Interrupted, b')
      end
  | EXTRACT =>
      match extract b ps with
      | (Returned a, b') => after_action cfg at_ b' [a]
      | (Raised e, b') => (Raised e, b')
      | (Interrupted, b') => (Interrupted, b')
      end
  | SELECT | DOWNLOAD | UPLOAD => after_action cfg at_ b []
  end.

(** What one iteration of the step loop ends with. *)
Inductive step_end : Type :=
| StepDone (arts : list artifact)   (* first try or retry succeeded *)
| StepFailed (e : exc)              (* the exception of the first try *)
| StepInterrupted.

(** The body of the [for step in plan.steps] loop of [_execute_steps]. *)
Definition run_step (cfg : executor_config) (user : dict) (b : B) (st : plan_step)
    : step_end * B * list event :=
  let injected := inject_params (params st) user in
  match execute_action cfg b (action st) injected with
  | (Returned arts, b1) => (StepDone arts, b1, [EvAttempt (sequence_id st) injected])
  | (Interrupted, b1) => (StepInterrupted, b1, [EvAttempt (sequence_id st) injected])
  | (Raised e, b1) =>
      if retry_on_error cfg then
        let b2 := sleep b1 1000 in
        let injected2 := inject_params (params st) user in
        let log := [EvAttempt (sequence_id st) injected; EvPause 1000;
                    EvAttempt (sequence_id st) injected2] in
        match execute_action cfg b2 (action st) injected2 with
        | (Returned arts, b3) => (StepDone arts, b3, log)
        | (Raised _, b3) => (StepFailed e, b3, log)
        | (Interrupted, b3) => (StepInterrupted, b3, log)
        end
      else (StepFailed e, b1, [EvAttempt (sequence_id st) injected])
  end.

Definition failure_message (st : plan_step) (e : exc) : string :=
  "Step " ++ Z_to_string (Z.of_nat (sequence_id st)) ++ " failed: " ++ exc_str e.

Fixpoint steps_loop (cfg : executor_config) (user : dict) (total : nat) (sts : list plan_step)
    (b : B) (arts : list artifact) (completed : nat)
    : outcome execution_result * B * list event :=
  match sts with
  | [] =>
      (Returned {| er_status := SUCCESS; er_artifacts := arts; er_steps_completed := completed;
                   er_total_steps := total; er_error_message := None |}, b, [])
  | st :: rest =>
      match run_step cfg user b st with
      | (StepDone a, b1, l1) =>
          let '(r, b2, l2) := steps_loop cfg user total rest b1 (arts ++ a)%list (S completed) in
          (r, b2, (l1 ++ l2)%list)
      | (StepFailed e, b1, l1) =>
          (Returned {| er_status := FAILURE; er_artifacts := arts; er_steps_completed := completed;
                       er_total_steps := total;
                       er_error_message := Some (failure_message st e) |}, b1, l1)
      | (StepInterrupted, b1, l1) => (Interrupted, b1, l1)
      end
  end.

(** [Executor._execute_steps] *)
Definition execute_steps (cfg : executor_config) (b : B) (p : plan) (user : dict)
    : outcome execution_result * B * list event :=
  steps_loop cfg user (List.length (steps p)) (steps p) b [] 0.

(** The [finally] clause of [execute_plan]: [browser.stop()], whose
    [Exception]s are logged and swallowed. *)
Definition finally_stop {A} (r : outcome A) (b : B) (log : list event) : outcome A * B * list event :=
  match stop b with
  | (Interrupted, b') => (Interrupted, b', (log ++ [EvStop])%list)
  | (_, b') => (r, b', (log ++ [EvStop])%list)
  end.

(** The [except Exception as e] clause of [execute_plan]. *)
Definition error_result (cfg : executor_config) (p : plan) (e : exc) (b : B)
    : outcome execution_result * B :=
  let mk arts := {| er_status := ERROR; er_artifacts := arts; er_steps_completed := 0;
                    er_total_steps := List.length (steps p);
                    er_error_message := Some (exc_str e) |} in
  if screenshot_on_error cfg then
    match dispatch b TakeScreenshot with
    | (Returned (Some c), b') =>
        if String.eqb c "" then (Returned (mk []), b')
        else (Returned (mk [{| art_type := SCREENSHOT_ART; art_name := "error_screenshot.png";
                                art_content := Some c;
                                art_metadata := [("error", VStr (exc_str e))] |}]), b')
    | (Returned None, b') => (Returned (mk []), b')
    | (Raised _, b') => (Returned (mk []), b')
    | (Interrupted, b') => (Interrupted, b')
    end
  else (Returned (mk []), b).

(** [Executor.execute_plan]: [try] start and run the steps, [except
    Exception] build an [ERROR] result, [finally] stop the browser. *)
Definition execute_plan (cfg : executor_config) (b : B) (p : plan) (user : dict)
    : outcome execution_result * B * list event :=
  match start b with
  | (Returned _, b1) =>
      match execute_steps cfg b1 p user with
      | (Returned r, b2, l) => finally_stop (Returned r) b2 (EvStart :: l)
      | (Raised e, b2, l) =>
          let '(r, b3) := error_result cfg p e b2 in finally_stop r b3 (EvStart :: l)
      | (Interrupted, b2, l) => finally_stop Interrupted b2 (EvStart :: l)
      end
  | (Raised e, b1) => let '(r, b2) := error_result cfg p e b1 in finally_stop r b2 [EvStart]
  | (Interrupted, b1) => finally_stop Interrupted b1 [EvStart]
  end.

(** [runs_ok cfg user b arts sts b' arts' log]: every step of [sts] ends in
    [StepDone] (first try or retry), from browser state [b] and artifacts
    [arts] to [b'] and [arts'], with the events [log]. *)
Inductive runs_ok (cfg : executor_config) (user : dict)
    : B -> list artifact -> list plan_step -> B -> list artifact -> list event -> Prop :=
| runs_ok_nil b arts : runs_ok cfg user b arts [] b arts []
| runs_ok_cons b arts st sts a b1 l1 b2 arts2 l2 :
    run_step cfg user b st = (StepDone a, b1, l1) ->
    runs_ok cfg user b1 (arts ++ a)%list sts b2 arts2 l2 ->
    runs_ok cfg user b arts (st :: sts) b2 arts2 (l1 ++ l2)%list.

Definition is_stop (e : event) : bool := match e with EvStop => true | _ => false end.

Definition stop_count (l : list event) : nat := List.length (filter is_stop l).

End Executor.

(* ------------------------------------------------------------------ *)
(** ** The interactive mapping session ([seventech/mapper/session.py],
       [seventech/mapper/collector.py]) *)

Inductive session_status : Type :=
| INITIALIZED | RUNNING | WAITING_FOR_INPUT | COMPLETED | FAILED | CANCELLED.

Record input_request : Type := {
  ir_field_name : string;
  ir_field_label : string;
  ir_prompt : string;
  ir_xpath : option string;
  ir_placeholder : option string;
  ir_current_step : nat;
  ir_required : bool
}.

Record collected_parameter : Type := {
  cp_name : string;
  cp_label : string;
  cp_value : string;
  cp_xpath : option string;
  cp_description : string;
  cp_example : string;
  cp_collected_at_step : option nat
}.

Fixpoint aset {A} (d : list (string * A)) (k : string) (v : A) : list (string * A) :=
  match d with
  | [] => [(k, v)]
  | (k', v') :: d' => if String.eqb k k' then (k', v) :: d' else (k', v') :: aset d' k v
  end.

(** [str.lower()] on one code point below 256: [A-Z], [À-Ö] and [Ø-Þ]
    move up by 32, everything else is kept. *)
Definition py_lower_char (c : ascii) : ascii :=
  let n := ascii_code c in
  if is_upper c || (Nat.leb 192 n && Nat.leb n 222 && negb (Nat.eqb n 215))
  then ascii_of_nat (n + 32) else c.

(** Unicode's [Cased] property on code points below 256: [A-Z], [a-z],
    [ª], [µ], [º], [À-Ö], [Ø-ö] and [ø-ÿ]. *)
Definition is_cased (c : ascii) : bool :=
  let n := ascii_code c in
  is_upper c || is_lower c || Nat.eqb n 170 || Nat.eqb n 181 || Nat.eqb n 186
  || (Nat.leb 192 n && negb (Nat.eqb n 215) && negb (Nat.eqb n 247)).

(** Whether the title case of a code point is again below 256: all but
    [µ] and [ÿ], whose title cases are U+039C and U+0178. *)
Definition title_in_latin1 (c : ascii) : bool :=
  negb (Nat.eqb (ascii_code c) 181 || Nat.eqb (ascii_code c) 255).

(** The full title case of one code point below 256: [a-z] and [à-þ]
    (but [÷]) move down by 32, [ß] becomes ["Ss"], everything else is kept
    (including [µ] and [ÿ], see [title_in_latin1]). *)
Definition py_title_char (c : ascii) : string :=
  let n := ascii_code c in
  if Nat.eqb n 223 then "Ss"
  else if is_lower c || (Nat.leb 224 n && Nat.leb n 254 && negb (Nat.eqb n 247))
  then String (ascii_of_nat (n - 32)) EmptyString
  else String c EmptyString.

(** [str.title()]: a code point after a cased one is lowered, any other
    is title-cased. *)
Fixpoint title_aux (prev_cased : bool) (s : string) : string :=
  match s with
  | EmptyString => EmptyString
  | String c s' =>
      ((if prev_cased then String (py_lower_char c) EmptyString else py_title_char c)
       ++ title_aux (is_cased c) s')%string
  end.

Fixpoint replace_char (a b : ascii) (s : string) : string :=
  match s with
  | EmptyString => EmptyString
  | String c s' => String (if Ascii.eqb c a then b else c) (replace_char a b s')
  end.

(** [ParameterCollector.collect]: the [parameters] dict, keyed by name
    (a repeated name overwrites the entry in place). *)
Definition collect (ps : list (string * collected_parameter)) (name value label : string)
    (xpath : option string) (description : string) (example : option string)
    (step_number : option nat) : list (string * collected_parameter) :=
  let label := if String.eqb label "" then title_aux false (replace_char "_" " " name) else label in
  let ex := match example with Some e => if String.eqb e "" then value else e | None => value end in
  aset ps name {| cp_name := name; cp_label := label; cp_value := value; cp_xpath := xpath;
                  cp_description := description; cp_example := ex;
                  cp_collected_at_step := step_number |}.

Record session : Type := {
  s_status : session_status;
  s_current_input_request : option input_request;
  s_parameters : list (string * collected_parameter);
  s_steps_completed : nat;
  s_error_message : option string
}.

Definition new_session : session :=
  {| s_status := INITIALIZED; s_current_input_request := None; s_parameters := [];
     s_steps_completed := 0; s_error_message := None |}.

(** [MapperSession.set_status] (no check of the current status). *)
Definition set_status (s : session) (st : session_status) : session :=
  {| s_status := st; s_current_input_request := s_current_input_request s;
     s_parameters := s_parameters s; s_steps_completed := s_steps_completed s;
     s_error_message := s_error_message s |}.

Definition set_request (s : session) (r : option input_request) : session :=
  {| s_status := s_status s; s_current_input_request := r;
     s_parameters := s_parameters s; s_steps_completed := s_steps_completed s;
     s_error_message := s_error_message s |}.

Definition set_error (s : session) (m : string) : session :=
  {| s_status := s_status s; s_current_input_request := s_current_input_request s;
     s_parameters := s_parameters s; s_steps_completed := s_steps_completed s;
     s_error_message := Some m |}.

Definition set_parameters (s : session) (ps : list (string * collected_parameter)) : session :=
  {| s_status := s_status s; s_current_input_request := s_current_input_request s;
     s_parameters := ps; s_steps_completed := s_steps_completed s;
     s_error_message := s_error_message s |}.

(** The calls that act on a session. [request_input] is split at its
    suspension point ([await self.on_input_needed(request)]): [AskInput]
    is the part before it, [InputReturned]/[InputRaised] its resumption with
    the callback's value or exception (for the API, [SessionManager.request_input],
    which raises [TimeoutError] after 300 s), and [NoInputCallback] the
    [RuntimeError] raised when no callback is configured. Other calls may
    run while a request is suspended, e.g. [SessionManager.cancel_session]. *)
Inductive session_op : Type :=
| MapObjectiveStart                                  (* map_objective: set_status(RUNNING) *)
| AskInput (field_name field_label prompt : string)
           (xpath placeholder : option string) (required : bool)
| NoInputCallback
| InputReturned (r : input_request) (value : string)
| InputRaised (r : input_request) (e : exc)
| Complete
| Fail (msg : string)
| Cancel.

Definition session_step (s : session) (op : session_op) : session :=
  match op with
  | MapObjectiveStart => set_status s RUNNING
  | AskInput f l p x ph req =>
      let r := {| ir_field_name := f; ir_field_label := l; ir_prompt := p; ir_xpath := x;
                  ir_placeholder := ph; ir_current_step := s_steps_completed s;
                  ir_required := req |} in
      set_status (set_request s (Some r)) WAITING_FOR_INPUT
  | NoInputCallback => s
  | InputReturned r v =>
      let s1 := set_parameters s
                  (collect (s_parameters s) (ir_field_name r) v (ir_field_label r) (ir_xpath r)
                     (ir_prompt r) (ir_placeholder r) (Some (s_steps_completed s))) in
      set_status (set_request s1 None) RUNNING
  | InputRaised _ e => set_error (set_status s FAILED) (exc_str e)
  | Complete => set_request (set_status s COMPLETED) None
  | Fail m => set_status (set_error s m) FAILED
  | Cancel => set_status s CANCELLED
  end.

(** The statuses a session goes through under a sequence of calls. *)
Fixpoint session_trace (s : session) (ops : list session_op) : list session_status :=
  match ops with
  | [] => []
  | op :: ops' => let s' := session_step s op in s_status s' :: session_trace s' ops'
  end.

(* ------------------------------------------------------------------ *)
(** ** Vocabulary of the statements *)

(** An action [_convert_action_to_step] turns into a step. *)
Definition convertible (a : agent_action) : bool :=
  match a with
  | [] => false
  | (name, _) :: _ =>
      negb (String.eqb name "mark_result_location")
      && match action_mapping name with Some _ => true | None => false end
  end.

(** The names [_find_parameter_by_value] can return (as [str]): the truthy
    ["name"] of each entry of the collector's ["parameters"] list. *)
Definition collected_names (collected : dict) : list string :=
  let plist := match get_or collected "parameters" (VList []) with
               | VList l => l | _ => [] end in
  flat_map (fun v => match v with
                     | VDict p => if truthy (get_or p "name" VNone)
                                  then [py_str (get_or p "name" VNone)] else []
                     | _ => []
                     end) plist.

(** The parameter dicts of the collector's ["parameters"] list. *)
Definition collected_entries (collected : dict) : list dict :=
  let plist := match get_or collected "parameters" (VList []) with
               | VList l => l | _ => [] end in
  flat_map (fun v => match v with VDict p => [p] | _ => [] end) plist.

(** The xpath of the first recorded action, in trace order, that used the
    index [target] with a truthy xpath. *)
Definition action_xpath (target : pyval) (a : agent_action) : option pyval :=
  match a with
  | [] => None
  | (_, ap) :: _ =>
      if py_eq (get_or ap "index" VNone) target && dmem ap "xpath"
         && truthy (get_or ap "xpath" VNone)
      then Some (get_or ap "xpath" VNone) else None
  end.

Fixpoint first_some {A B} (f : A -> option B) (l : list A) : option B :=
  match l with
  | [] => None
  | x :: l' => match f x with Some y => Some y | None => first_some f l' end
  end.

Definition first_action_xpath (target : pyval) (items : list history_item) : option pyval :=
  first_some (fun it => first_some (action_xpath target) (actions_of it)) items.

(** The names referenced by [{param:NAME}] placeholders across the string
    fields of a plan's steps (as [_inject_params] recognises them). *)
Definition plan_placeholder_names (p : plan) : list string :=
  flat_map (fun st => flat_map (fun kv => match snd kv with
                                          | VStr s => findall_params s
                                          | _ => []
                                          end) (params st)) (steps p).

(** What the theorems assume of the listing of [set(l)]: duplicate-free,
    with exactly the elements of [l]. *)
Definition lists_set (f : list string -> list string) : Prop :=
  forall l, NoDup (f l) /\ forall x, In x (f l) <-> In x l.

(** A successful mapping whose only recorded action is [done]. *)
Definition item_done : history_item :=
  {| hi_state := None; hi_model_output := Some [[("done", [("text", VStr "ok")])]] |}.

Definition mr_with (items : list history_item) (names : list string) : mapper_result :=
  {| mr_objective := "consultar IPTU";
     mr_success := true;
     mr_raw_history := Some {| rh_history := Some items;
                               rh_other_keys := [("final_result", VNone); ("errors", VList [])] |};
     mr_error_message := None;
     mr_metadata := {| md_collected_parameters := [];
                       md_parameter_names := names;
                       md_result_location := None;
                       md_starting_url := None;
                       md_tags := [] |} |}.





Fixpoint all_chars (f : ascii -> bool) (s : string) : bool :=
  match s with EmptyString => true | String c s' => f c && all_chars f s' end.











(* ------------------------------------------------------------------ *)
(** ** The strategies of element resolution *)

(** The five strategies of [_find_element], each as the node it would
    return on its own, in the order its docstring lists them. *)
Definition loc_str (ps : dict) (k : string) : string := as_str (get_or ps k (VStr "")).

Definition by_index_strategy (element_by_index : pyval -> option dom_node) (ps : dict) :=
  element_by_index (get_or ps "index" (VInt 0)).

Definition by_id_strategy (sm : list (Z * dom_node)) (ps : dict) : option dom_node :=
  if String.eqb (loc_str ps "element_id") "" then None
  else find_in_map (fun n => has_attrs n
                      && opt_str_eqb (sget (node_attributes n) "id") (loc_str ps "element_id")) sm.

Definition by_xpath_strategy (sm : list (Z * dom_node)) (ps : dict) : option dom_node :=
  if String.eqb (loc_str ps "xpath") "" then None
  else find_in_map (fun n => String.eqb (node_xpath n) (loc_str ps "xpath")) sm.

Definition by_text_strategy (sm : list (Z * dom_node)) (ps : dict) : option dom_node :=
  if String.eqb (loc_str ps "expected_text") "" then None
  else match best_text_match (loc_str ps "expected_text") sm with
       | (Some (_, n), sc) => if score_gt sc (3, 10) then Some n else None
       | (None, _) => None
       end.

Definition by_tag_class_strategy (sm : list (Z * dom_node)) (ps : dict) : option dom_node :=
  if String.eqb (loc_str ps "tag_name") "" || String.eqb (loc_str ps "element_class") "" then None
  else find_in_map (fun n => String.eqb (node_tag_name n) (loc_str ps "tag_name") && has_attrs n
                      && opt_str_eqb (sget (node_attributes n) "class") (loc_str ps "element_class")) sm.

Fixpoint first_hit (l : list (option dom_node)) : option dom_node :=
  match l with
  | [] => None
  | Some n :: _ => Some n
  | None :: l' => first_hit l'
  end.

(* ------------------------------------------------------------------ *)
(** ** Concrete inputs *)

(** An input of a personal e-mail address that matches no collected value. *)
Definition item_email : history_item :=
  {| hi_state := None;
     hi_model_output :=
       Some [[("input", [("index", VInt 4); ("text", VStr "joao@site.com");
                         ("xpath", VStr "//input[@id='email']")])]] |}.

(** A mapping that marked element 23 as the result, clicked it with a
    recorded xpath, and extracted with its own query; no element-map
    snapshot was recorded. *)
Definition item_click_23 : history_item :=
  {| hi_state := None;
     hi_model_output := Some [[("click", [("index", VInt 23); ("xpath", VStr "//td[@id='v']")])]] |}.

Definition item_extract : history_item :=
  {| hi_state := None;
     hi_model_output := Some [[("extract", [("query", VStr "IPTU total")])]] |}.

Definition marker_23 : dict := [("index", VInt 23); ("description", VStr "valor do IPTU")].

Definition history_23 : raw_history :=
  {| rh_history := Some [item_click_23; item_extract];
     rh_other_keys := [("final_result", VNone); ("errors", VList [])] |}.

Definition mr_marked : mapper_result :=
  {| mr_objective := "consultar IPTU";
     mr_success := true;
     mr_raw_history := Some history_23;
     mr_error_message := None;
     mr_metadata := {| md_collected_parameters := [];
                       md_parameter_names := [];
                       md_result_location := Some marker_23;
                       md_starting_url := None;
                       md_tags := [] |} |}.

(** A one-step plan that opens a page. *)
Definition goto_step : plan_step :=
  {| sequence_id := 1; action := GOTO; params := [("url", VStr "https://x")];
     original_action := "navigate"; original_params := [("url", VStr "https://x")] |}.

Definition goto_plan : plan :=
  {| metadata := {| pm_description := "abrir"; pm_url := None; pm_required_params := [];
                    pm_tags := []; pm_expected_output := None |};
     steps := [goto_step] |}.

(** A browser whose state is the number of dispatches so far: the first
    dispatch fails with a transient error, the following ones succeed. *)
Definition no_dom (b : nat) : option (list (Z * dom_node)) := None.
Definition no_element (b : nat) (v : pyval) : option dom_node := None.
Definition flaky_dispatch (b : nat) (ev : browser_event) : outcome (option string) * nat :=
  match b with
  | O => (Raised (RuntimeError "net::ERR_CONNECTION_RESET"), 1)
  | S _ => (Returned None, S b)
  end.
Definition keep_sleep (b : nat) (ms : Z) : nat := b.
Definition no_extract (b : nat) (ps : dict) : outcome artifact * nat :=
  (Raised (OtherException "no extraction"), b).

Definition no_retry_config : executor_config :=
  {| headless := true; save_screenshots := false; screenshot_on_error := false;
     retry_on_error := false |}.

Definition retry_config : executor_config :=
  {| headless := true; save_screenshots := false; screenshot_on_error := false;
     retry_on_error := true |}.

(** Two elements: [node_a] (id "a") at index 0 and [node_b] (id "target"). *)
Definition node_a : dom_node :=
  {| node_attributes := [("id", "a")]; node_value := ""; node_xpath := "/html/body/a";
     node_tag_name := "a" |}.
Definition node_b : dom_node :=
  {| node_attributes := [("id", "target")]; node_value := ""; node_xpath := "/html/body/b";
     node_tag_name := "b" |}.
Definition map_ab : list (Z * dom_node) := [(0%Z, node_a); (1%Z, node_b)].
Definition element_of_map (v : pyval) : option dom_node :=
  match py_int_key v with Some k => zlookup map_ab k | None => None end.

Definition insc_request : input_request :=
  {| ir_field_name := "inscricao"; ir_field_label := "Inscricao"; ir_prompt := "Informe a inscricao";
     ir_xpath := None; ir_placeholder := None; ir_current_step := 0; ir_required := true |}.

Definition ask_insc : session_op :=
  AskInput "inscricao" "Inscricao" "Informe a inscricao" None None true.

Definition waiting_session : session :=
  session_step (session_step new_session MapObjectiveStart) ask_insc.


(* ------------------------------------------------------------------ *)
(** ** The parameter collector ([seventech/mapper/collector.py]) *)

(** [d.get(k)] on a dict of any value type. *)
Fixpoint aget {A} (d : list (string * A)) (k : string) : option A :=
  match d with
  | [] => None
  | (k', v) :: d' => if String.eqb k k' then Some v else aget d' k
  end.

(** [d.pop(k, None)]: a dict holds each key at most once. *)
Definition adel {A} (d : list (string * A)) (k : string) : list (string * A) :=
  filter (fun kv => negb (String.eqb k (fst kv))) d.

(** [ParameterCollector]: the [parameters] dict and [collection_count]. *)
Record param_collector : Type := {
  pc_parameters : list (string * collected_parameter);
  pc_collection_count : nat
}.

(** [ParameterCollector.__init__] *)
Definition pc_new : param_collector :=
  {| pc_parameters := []; pc_collection_count := 0 |}.

(** [ParameterCollector.collect]: [label] is [None] or a string, both
    falsy when empty. *)
Definition pc_collect (c : param_collector) (name value : string) (label : option string)
    (xpath : option string) (description : string) (example : option string)
    (step_number : option nat) : param_collector :=
  {| pc_parameters :=
       collect (pc_parameters c) name value (match label with Some l => l | None => "" end)
         xpath description example step_number;
     pc_collection_count := S (pc_collection_count c) |}.

(** [ParameterCollector.get_parameter] *)
Definition pc_get_parameter (c : param_collector) (name : string) : option collected_parameter :=
  aget (pc_parameters c) name.

(** [ParameterCollector.has_parameter] *)
Definition pc_has_parameter (c : param_collector) (name : string) : bool :=
  match aget (pc_parameters c) name with Some _ => true | None => false end.

(** [ParameterCollector.list_parameters] *)
Definition pc_list_parameters (c : param_collector) : list collected_parameter :=
  map snd (pc_parameters c).

(** [ParameterCollector.get_parameter_names] *)
Definition pc_get_parameter_names (c : param_collector) : list string :=
  map fst (pc_parameters c).

(** [ParameterCollector.clear] *)
Definition pc_clear (c : param_collector) : param_collector :=
  {| pc_parameters := []; pc_collection_count := 0 |}.

Definition opt_pystr (o : option string) : pyval :=
  match o with Some s => VStr s | None => VNone end.

Definition opt_pyint (o : option nat) : pyval :=
  match o with Some n => VInt (Z.of_nat n) | None => VNone end.

(** [CollectedParameter.model_dump()]; the [param_id] uuid is not
    modelled, and [required] keeps its default [True] ([collect] never
    passes it). *)
Definition cp_dump (p : collected_parameter) : pyval :=
  VDict [("name", VStr (cp_name p)); ("label", VStr (cp_label p)); ("value", VStr (cp_value p));
         ("xpath", opt_pystr (cp_xpath p)); ("description", VStr (cp_description p));
         ("required", VBool true); ("example", VStr (cp_example p));
         ("collected_at_step", opt_pyint (cp_collected_at_step p))].

(** [ParameterCollector.to_dict], the [collected_parameters] entry of the
    interactive mapper's metadata that the planner reads. *)
Definition pc_to_dict (c : param_collector) : dict :=
  [("parameters", VList (map cp_dump (pc_list_parameters c)));
   ("count", VInt (Z.of_nat (pc_collection_count c)))].

(** The input of [ParameterCollector.from_dict] once each entry of
    [data['parameters']] has gone through [CollectedParameter.model_validate]
    (the inverse of [model_dump]): the entries of the ["parameters"] and
    ["count"] keys, [None] for a missing key. *)
Record collector_data : Type := {
  cd_parameters : option (list collected_parameter);
  cd_count : option nat
}.

(** [to_dict] before the [model_dump] of each parameter. *)
Definition pc_to_data (c : param_collector) : collector_data :=
  {| cd_parameters := Some (pc_list_parameters c); cd_count := Some (pc_collection_count c) |}.

(** [ParameterCollector.from_dict] *)
Definition pc_from_dict (data : collector_data) : param_collector :=
  let ps := fold_left (fun acc p => aset acc (cp_name p) p)
                      (match cd_parameters data with Some l => l | None => [] end) [] in
  {| pc_parameters := ps;
     pc_collection_count := match cd_count data with Some n => n | None => List.length ps end |}.

(** The calls that change a collector. *)
Inductive collector_op : Type :=
| CCollect (name value : string) (label : option string) (xpath : option string)
           (description : string) (example : option string) (step_number : option nat)
| CClear.

Definition collector_step (c : param_collector) (op : collector_op) : param_collector :=
  match op with
  | CCollect n v l x d e s => pc_collect c n v l x d e s
  | CClear => pc_clear c
  end.

Definition collector_run (c : param_collector) (ops : list collector_op) : param_collector :=
  fold_left collector_step ops c.

(** The names passed to [collect] since the last [clear], in call order. *)
Definition names_since_clear (ops : list collector_op) : list string :=
  fold_left (fun acc op => match op with
                           | CCollect n _ _ _ _ _ _ => (acc ++ [n])%list
                           | CClear => []
                           end) ops [].

(** [dedup] as the successive [set.add]s. *)
Definition dstep (acc : list string) (x : string) : list string :=
  if existsb (String.eqb x) acc then acc else (acc ++ [x])%list.

(** The shape of the [parameters] dict of a collector: one entry per name,
    stored under the parameter's own name. *)
Definition pc_wf (ps : list (string * collected_parameter)) : Prop :=
  NoDup (map fst ps) /\ Forall (fun kv => fst kv = cp_name (snd kv)) ps.

(** A session after a sequence of calls. *)
Definition session_run (s : session) (ops : list session_op) : session :=
  fold_left session_step ops s.

(** The calls that assign [current_input_request]. *)
Definition sets_request (op : session_op) : bool :=
  match op with
  | AskInput _ _ _ _ _ _ | InputReturned _ _ | Complete => true
  | _ => false
  end.

(* ------------------------------------------------------------------ *)
(** ** The API session manager ([seventech/api/session_manager.py]) *)

(** An [asyncio.Future] of the event loop. *)
Inductive future_state : Type :=
| FPending
| FResult (v : string)
| FCancelled.

(** [future.done()] *)
Definition future_done (f : future_state) : bool :=
  match f with FPending => false | _ => true end.

(** [PendingInputRequest]: the request and the future it waits on, which
    the waiting [request_input] call also holds. *)
Record pending_input : Type := {
  pi_request : input_request;
  pi_future : nat
}.

(** [SessionManager]: its three dicts, and the futures of the event loop
    (by allocation number), shared between the [pending_inputs] entries
    and the [request_input] calls waiting on them. *)
Record session_manager : Type := {
  sm_sessions : list (string * session);
  sm_pending : list (string * pending_input);
  sm_results : list (string * mapper_result);
  sm_futures : list future_state
}.

(** [l[i] = x] *)
Fixpoint list_set {A} (l : list A) (i : nat) (x : A) : list A :=
  match l, i with
  | [], _ => []
  | _ :: l', O => x :: l'
  | y :: l', S i' => y :: list_set l' i' x
  end.

(** The state of a future ([request_input] allocates every number it
    hands out). *)
Definition fut_state (fs : list future_state) (f : nat) : future_state := nth f fs FPending.

Definition with_sessions (m : session_manager) (s : list (string * session)) : session_manager :=
  {| sm_sessions := s; sm_pending := sm_pending m; sm_results := sm_results m;
     sm_futures := sm_futures m |}.
Definition with_pending (m : session_manager) (p : list (string * pending_input)) : session_manager :=
  {| sm_sessions := sm_sessions m; sm_pending := p; sm_results := sm_results m;
     sm_futures := sm_futures m |}.
Definition with_results (m : session_manager) (r : list (string * mapper_result)) : session_manager :=
  {| sm_sessions := sm_sessions m; sm_pending := sm_pending m; sm_results := r;
     sm_futures := sm_futures m |}.
Definition with_futures (m : session_manager) (fs : list future_state) : session_manager :=
  {| sm_sessions := sm_sessions m; sm_pending := sm_pending m; sm_results := sm_results m;
     sm_futures := fs |}.

(** [SessionManager.__init__] *)
Definition sm_new : session_manager :=
  {| sm_sessions := []; sm_pending := []; sm_results := []; sm_futures := [] |}.

(** [SessionManager.create_session] *)
Definition sm_create_session (m : session_manager) (session_id : string) : session_manager :=
  with_sessions m (aset (sm_sessions m) session_id new_session).

(** [SessionManager.get_session] *)
Definition sm_get_session (m : session_manager) (session_id : string) : option session :=
  aget (sm_sessions m) session_id.

(** [SessionManager.request_input] up to its [await]: a fresh future is
    created and stored with the request; the number of the future is the
    waiting call's local [response_future]. *)
Definition sm_request_input_begin (m : session_manager) (session_id : string) (r : input_request)
    : nat * session_manager :=
  let f := List.length (sm_futures m) in
  (f, {| sm_sessions := sm_sessions m;
         sm_pending := aset (sm_pending m) session_id {| pi_request := r; pi_future := f |};
         sm_results := sm_results m;
         sm_futures := (sm_futures m ++ [FPending])%list |}).

(** The rest of [SessionManager.request_input], when [asyncio.wait_for]
    resumes: with the future's result, with [CancelledError] (a
    [BaseException]) when it was cancelled, or after the 300 s timeout with
    the future still pending, which [wait_for] cancels before the
    [TimeoutError] is re-raised; the [finally] clause pops the session's
    [pending_inputs] entry. *)
Definition sm_request_input_end (m : session_manager) (session_id : string) (f : nat)
    : outcome string * session_manager :=
  let m' := with_pending m (adel (sm_pending m) session_id) in
  match fut_state (sm_futures m) f with
  | FResult v => (Returned v, m')
  | FCancelled => (Interrupted, m')
  | FPending =>
      (Raised (TimeoutError ("Input request timed out for session " ++ session_id)),
       with_futures m' (list_set (sm_futures m) f FCancelled))
  end.

(** [SessionManager.provide_input] *)
Definition sm_provide_input (m : session_manager) (session_id value : string)
    : bool * session_manager :=
  match aget (sm_pending m) session_id with
  | None => (false, m)
  | Some p =>
      if negb (future_done (fut_state (sm_futures m) (pi_future p)))
      then (true, with_futures m (list_set (sm_futures m) (pi_future p) (FResult value)))
      else (false, m)
  end.

(** [SessionManager.get_pending_input] *)
Definition sm_get_pending_input (m : session_manager) (session_id : string) : option input_request :=
  match aget (sm_pending m) session_id with Some p => Some (pi_request p) | None => None end.

(** [SessionManager.store_result] *)
Definition sm_store_result (m : session_manager) (session_id : string) (r : mapper_result)
    : session_manager :=
  with_results m (aset (sm_results m) session_id r).

(** [SessionManager.get_result] *)
Definition sm_get_result (m : session_manager) (session_id : string) : option mapper_result :=
  aget (sm_results m) session_id.

(** [SessionManager.delete_session] *)
Definition sm_delete_session (m : session_manager) (session_id : string) : bool * session_manager :=
  match aget (sm_sessions m) session_id with
  | Some _ =>
      (true, {| sm_sessions := adel (sm_sessions m) session_id;
                sm_pending := adel (sm_pending m) session_id;
                sm_results := adel (sm_results m) session_id;
                sm_futures := sm_futures m |})
  | None => (false, m)
  end.

(** [SessionManager.cancel_session]: [session.cancel()] on the stored
    session, then [cancel()] on a pending future that is not done. *)
Definition sm_cancel_session (m : session_manager) (session_id : string) : bool * session_manager :=
  match aget (sm_sessions m) session_id with
  | None => (false, m)
  | Some s =>
      let m1 := with_sessions m (aset (sm_sessions m) session_id (session_step s Cancel)) in
      match aget (sm_pending m) session_id with
      | Some p =>
          if negb (future_done (fut_state (sm_futures m) (pi_future p)))
          then (true, with_futures m1 (list_set (sm_futures m) (pi_future p) FCancelled))
          else (true, m1)
      | None => (true, m1)
      end
  end.

(* ------------------------------------------------------------------ *)
(** ** Plan names ([Planner._generate_plan_name]) *)

(** The objective is a string of code points below 256 (Latin-1), lowered
    with [py_lower_char]. *)

(** Regex [\s] on these code points ([str.isspace()]): [\t\n\v\f\r],
    [\x1c-\x1f], space, [\x85] and [\xa0]. *)
Definition is_space (c : ascii) : bool :=
  let n := ascii_code c in
  (Nat.leb 9 n && Nat.leb n 13) || (Nat.leb 28 n && Nat.leb n 32)
  || Nat.eqb n 133 || Nat.eqb n 160.

(** The characters [re.sub(r'[^a-z0-9\s-]', '', name)] keeps. *)
Definition name_char (c : ascii) : bool :=
  is_lower c || is_digit c || is_space c || Ascii.eqb c "-".

(** [re.sub(r'\s+', '_', name)]; [in_run] holds inside a run of
    whitespace already replaced. *)
Fixpoint sub_spaces (in_run : bool) (l : list ascii) : list ascii :=
  match l with
  | [] => []
  | c :: l' =>
      if is_space c then (if in_run then sub_spaces true l' else "_"%char :: sub_spaces true l')
      else c :: sub_spaces false l'
  end.

Fixpoint lstrip_us (l : list ascii) : list ascii :=
  match l with
  | [] => []
  | c :: l' => if Ascii.eqb c "_" then lstrip_us l' else l
  end.

(** [name.strip('_')] *)
Definition strip_us (l : list ascii) : list ascii := rev (lstrip_us (rev (lstrip_us l))).

(** [Planner._generate_plan_name] *)
Definition generate_plan_name (objective : string) : string :=
  let name := map py_lower_char (firstn 50 (list_ascii_of_string objective)) in
  let name := filter name_char name in
  let name := sub_spaces false name in
  string_of_list_ascii (strip_us name).

(** The sequence id of a step attempt of the executor's log. *)
Definition attempt_sid (e : event) : option nat :=
  match e with EvAttempt sid _ => Some sid | _ => None end.

(** Inputs of the further checks: a collector holding the "inscricao"
    value, the [input] action that typed it, a browser that fails to
    start, and a session manager with one session. *)
Definition insc_collector : param_collector :=
  pc_collect pc_new "inscricao" "0.000.001-8" None None "Informe a inscricao" None (Some 0).

Definition insc_param : collected_parameter :=
  {| cp_name := "inscricao"; cp_label := "Inscricao"; cp_value := "0.000.001-8"; cp_xpath := None;
     cp_description := "Informe a inscricao"; cp_example := "0.000.001-8";
     cp_collected_at_step := Some 0 |}.

Definition insc_typed_op : dict := [("index", VInt 3); ("text", VStr "0.000.001-8")].

Definition failing_start (b : nat) : outcome unit * nat :=
  (Raised (RuntimeError "browser failed to launch"), b).
Definition ok_stop (b : nat) : outcome unit * nat := (Returned tt, b).

Definition one_session_manager : session_manager := sm_create_session sm_new "s1".

(* ------------------------------------------------------------------ *)
(** ** Evaluation checks *)

Example extract_param_name_id :
  extract_param_name ".../*[@id='insc']" = "insc".
Proof. reflexivity. Qed.

Example should_parameterize_email : should_parameterize "joao@site.com" = true.
Proof. reflexivity. Qed.

Example should_parameterize_cpf : should_parameterize "123.456.789-09" = true.
Proof. reflexivity. Qed.

Example should_parameterize_word : should_parameterize "IPTU 2024" = false.
Proof. vm_compute. reflexivity. Qed.

(** Non-ASCII word characters: ["Nº12345-678"] ([º] is a word character,
    so no [\b] precedes the digits), ["{param:preço}"] and
    ["preço".title()]. *)
Example should_parameterize_ordinal :
  should_parameterize ("N" ++ String (ascii_of_nat 186) "12345-678") = false.
Proof. vm_compute. reflexivity. Qed.

Example inject_params_accented_name :
  inject_params [("text", VStr ("{param:pre" ++ String (ascii_of_nat 231) "o}"))]
                [("pre" ++ String (ascii_of_nat 231) "o", VStr "10")]
  = [("text", VStr "10")].
Proof. vm_compute. reflexivity. Qed.

Example title_accented_name :
  title_aux false ("pre" ++ String (ascii_of_nat 231) "o")
  = ("Pre" ++ String (ascii_of_nat 231) "o")%string.
Proof. reflexivity. Qed.

Example insc_scenario_plan :
  outcome_map (fun p => (pm_required_params (metadata p), map params (steps p)))
    (create_plan set_in_insertion_order insc_mapper_result)
  = Returned (["insc"; "inscricao"],
              [[("url", VStr "https://x")];
               [("index", VInt 3); ("xpath", VStr ".../*[@id='insc']");
                ("text", VStr "{param:inscricao}"); ("is_parameterized", VBool true)]]).
Proof. reflexivity. Qed.

(* ------------------------------------------------------------------ *)
(** ** Proofs about the executor *)

Section ExecutorProofs.

Variable B : Type.
Variable dom_state : B -> option (list (Z * dom_node)).
Variable element_by_index : B -> pyval -> option dom_node.
Variable dispatch : B -> browser_event -> outcome (option string) * B.
Variable sleep : B -> Z -> B.
Variable extract : B -> dict -> outcome artifact * B.
Variable start stop : B -> outcome unit * B.

Local Abbreviation run_step := (run_step B dom_state element_by_index dispatch sleep extract).
Local Abbreviation steps_loop := (steps_loop B dom_state element_by_index dispatch sleep extract).
Local Abbreviation execute_steps := (execute_steps B dom_state element_by_index dispatch sleep extract).
Local Abbreviation execute_plan :=
  (execute_plan B dom_state element_by_index dispatch sleep extract start stop).

Lemma steps_loop_counters cfg user total sts :
  forall b arts c r b' l,
    steps_loop cfg user total sts b arts c = (Returned r, b', l) ->
    total = c + List.length sts ->
    er_total_steps r = total
    /\ er_steps_completed r <= total
    /\ (er_status r = SUCCESS /\ er_steps_completed r = total
        \/ er_status r = FAILURE /\ er_steps_completed r < total).
Proof.
  induction sts as [|st rest IH]; intros b arts c r b' l Hrun Htot; simpl in Hrun.
  - inversion Hrun; subst; simpl in *. repeat split; [lia|]. left; split; [reflexivity|lia].
  - destruct (run_step cfg user b st) as [[[a|e|] b1] l1] eqn:Hst.
    + destruct (steps_loop cfg user total rest b1 (arts ++ a)%list (S c)) as [[r2 b2] l2] eqn:Hrest.
      inversion Hrun; subst.
      eapply IH; [exact Hrest|simpl in *; lia].
    + inversion Hrun; subst; simpl in *. repeat split; [lia|]. right; split; [reflexivity|lia].
    + discriminate.
Qed.

(** C10: every result of the step loop of [_execute_steps] satisfies
    [0 <= steps_completed <= total_steps]; its status is [SUCCESS] exactly
    when [steps_completed = total_steps], and a [FAILURE] result has
    [steps_completed < total_steps]. *)
Theorem execute_steps_counters cfg b p user r b' l :
  execute_steps cfg b p user = (Returned r, b', l) ->
  0 <= er_steps_completed r <= er_total_steps r
  /\ (er_status r = SUCCESS <-> er_steps_completed r = er_total_steps r)
  /\ (er_status r = FAILURE -> er_steps_completed r < er_total_steps r).
Proof.
  unfold execute_steps; intros H.
  destruct (steps_loop_counters cfg user _ _ _ _ _ _ _ _ H eq_refl)
    as (Htot & Hle & [[Hs Hc]|[Hs Hc]]); rewrite Htot.
  - repeat split; try lia; rewrite Hs; auto. discriminate.
  - repeat split; try lia; rewrite Hs; try discriminate; try lia.
Qed.

Lemma run_step_no_stop cfg user b st :
  stop_count (snd (run_step cfg user b st)) = 0.
Proof.
  unfold run_step.
  destruct (execute_action _ _ _ _ _ _ _ _ _ _) as [[a|e|] b1]; try reflexivity.
  destruct (retry_on_error cfg); [|reflexivity].
  destruct (execute_action _ _ _ _ _ _ _ _ _ _) as [[a|e'|] b3]; reflexivity.
Qed.

Lemma stop_count_app l1 l2 : stop_count (l1 ++ l2) = stop_count l1 + stop_count l2.
Proof. unfold stop_count. rewrite filter_app, length_app. reflexivity. Qed.

Lemma steps_loop_no_stop cfg user total sts :
  forall b arts c, stop_count (snd (steps_loop cfg user total sts b arts c)) = 0.
Proof.
  induction sts as [|st rest IH]; intros b arts c; simpl; [reflexivity|].
  pose proof (run_step_no_stop cfg user b st) as H0.
  destruct (run_step cfg user b st) as [[[a|e|] b1] l1]; simpl in *; try exact H0.
  specialize (IH b1 (arts ++ a)%list (S c)).
  destruct (steps_loop cfg user total rest b1 (arts ++ a)%list (S c)) as [[r2 b2] l2].
  simpl in *. rewrite stop_count_app. lia.
Qed.

Lemma finally_stop_log {A} (r : outcome A) b log :
  stop_count log = 0 ->
  stop_count (snd (finally_stop B stop r b log)) = 1
  /\ exists l0, snd (finally_stop B stop r b log) = (l0 ++ [EvStop])%list.
Proof.
  intros H. unfold finally_stop.
  destruct (stop b) as [[u|e|] b']; simpl;
    (split; [rewrite stop_count_app, H; reflexivity | eexists; reflexivity]).
Qed.

(** C8: whatever [execute_plan] ends with (a [SUCCESS] or [FAILURE] result
    of the step loop, an [ERROR] result after an [Exception] such as a
    failing [browser.start()], or an interruption propagating out of the
    call), [browser.stop()] has been called exactly once, as the last event
    of the call. *)
Theorem execute_plan_stops_once cfg b p user :
  stop_count (snd (execute_plan cfg b p user)) = 1
  /\ exists l0, snd (execute_plan cfg b p user) = (l0 ++ [EvStop])%list.
Proof.
  unfold execute_plan.
  destruct (start b) as [[u|e|] b1].
  - pose proof (steps_loop_no_stop cfg user (List.length (steps p)) (steps p) b1 [] 0) as H0.
    unfold execute_steps.
    destruct (steps_loop cfg user _ (steps p) b1 [] 0) as [[[r|e|] b2] l].
    + apply finally_stop_log. exact H0.
    + destruct (error_result B dispatch cfg p e b2) as [r b3].
      apply finally_stop_log. exact H0.
    + apply finally_stop_log. exact H0.
  - destruct (error_result B dispatch cfg p e b1) as [r b2].
    apply finally_stop_log. reflexivity.
  - apply finally_stop_log. reflexivity.
Qed.

Local Abbreviation runs_ok := (runs_ok B dom_state element_by_index dispatch sleep extract).
Local Abbreviation execute_action := (execute_action B dom_state element_by_index dispatch sleep extract).

Lemma steps_loop_prefix cfg user total b arts pre b1 A L :
  runs_ok cfg user b arts pre b1 A L ->
  forall rest c,
    steps_loop cfg user total (pre ++ rest)%list b arts c
    = let '(r, b', l) := steps_loop cfg user total rest b1 A (c + List.length pre) in
      (r, b', (L ++ l)%list).
Proof.
  induction 1 as [b arts|b arts st sts a b1 l1 b2 arts2 l2 Hst Hrest IH]; intros rest c.
  - simpl. rewrite Nat.add_0_r.
    destruct (steps_loop cfg user total rest b arts c) as [[r b'] l]; reflexivity.
  - simpl. rewrite Hst. rewrite IH.
    replace (S c + List.length sts) with (c + S (List.length sts)) by lia.
    destruct (steps_loop cfg user total rest b2 arts2 (c + S (List.length sts))) as [[r b'] l].
    rewrite app_assoc. reflexivity.
Qed.

(** C4: with [retry_on_error] set (the default), when the first dispatch of
    a step raises, the step is dispatched once more after a 1000 ms pause,
    with its parameters injected anew and resolved against the browser state
    of that moment; if this retry raises too the run stops with a [FAILURE]
    result carrying the artifacts gathered so far, [steps_completed] equal to
    the number of steps before it (all successful), and the message
    "Step <sequence id> failed: <first error>"; if the retry succeeds the
    step counts as completed and the run ends in [SUCCESS] when the
    remaining steps succeed. *)
Theorem retry_once_semantics cfg user p pre st post b b1 A L e1 b2 :
  retry_on_error cfg = true ->
  steps p = (pre ++ st :: post)%list ->
  runs_ok cfg user b [] pre b1 A L ->
  execute_action cfg b1 (action st) (inject_params (params st) user) = (Raised e1, b2) ->
  let inj := inject_params (params st) user in
  let retry_log := [EvAttempt (sequence_id st) inj; EvPause 1000; EvAttempt (sequence_id st) inj] in
  (forall e2 b3,
      execute_action cfg (sleep b2 1000) (action st) inj = (Raised e2, b3) ->
      execute_steps cfg b p user
      = (Returned {| er_status := FAILURE; er_artifacts := A;
                     er_steps_completed := List.length pre;
                     er_total_steps := List.length (steps p);
                     er_error_message := Some (failure_message st e1) |},
         b3, (L ++ retry_log)%list))
  /\ (forall a b3 b4 A' L',
        execute_action cfg (sleep b2 1000) (action st) inj = (Returned a, b3) ->
        runs_ok cfg user b3 (A ++ a)%list post b4 A' L' ->
        execute_steps cfg b p user
        = (Returned {| er_status := SUCCESS; er_artifacts := A';
                       er_steps_completed := List.length (steps p);
                       er_total_steps := List.length (steps p);
                       er_error_message := None |},
           b4, (L ++ retry_log ++ L')%list)).
Proof.
  intros Hretry Hsteps Hpre Hfirst inj retry_log. subst inj retry_log.
  unfold execute_steps. rewrite Hsteps, (steps_loop_prefix _ _ _ _ _ _ _ _ _ Hpre).
  split.
  - intros e2 b3 Hsecond. simpl.
    unfold run_step. cbv zeta. rewrite Hfirst, Hretry. rewrite Hsecond.
    reflexivity.
  - intros a b3 b4 A' L' Hsecond Hpost. simpl.
    unfold run_step. cbv zeta. rewrite Hfirst, Hretry. rewrite Hsecond.
    pose proof (steps_loop_prefix _ _ (List.length (pre ++ st :: post)) _ _ _ _ _ _ Hpost [] (S (List.length pre))) as Hp.
    rewrite app_nil_r in Hp. rewrite Hp. simpl.
    rewrite length_app. simpl.
    replace (S (List.length pre + List.length post)) with (List.length pre + S (List.length post)) by lia.
    rewrite app_nil_r. reflexivity.
Qed.

End ExecutorProofs.

(* ------------------------------------------------------------------ *)
(** ** Element resolution *)

(** C5: with a non-empty current element map, [_find_element] returns the
    hit of the first strategy that finds a node, in the order ordinal index,
    identifier attribute, xpath, text similarity, tag plus class (and raises
    when none does); in particular, when the index resolves to a node and
    the identifier attribute would match a different node, the index's node
    is returned. *)
Theorem find_element_strategy_order sm element_by_index ps :
  sm <> [] ->
  (find_element (Some sm) element_by_index ps
   = match first_hit [by_index_strategy element_by_index ps; by_id_strategy sm ps;
                      by_xpath_strategy sm ps; by_text_strategy sm ps;
                      by_tag_class_strategy sm ps] with
     | Some n => Returned n
     | None => Raised (ValueError (not_found_message (get_or ps "index" (VInt 0))
                                    (loc_str ps "element_id") (loc_str ps "xpath")
                                    (loc_str ps "expected_text")))
     end)
  /\ (forall n_index n_id,
        by_index_strategy element_by_index ps = Some n_index ->
        by_id_strategy sm ps = Some n_id ->
        n_index <> n_id ->
        find_element (Some sm) element_by_index ps = Returned n_index).
Proof.
  intros Hsm.
  assert (Horder :
    find_element (Some sm) element_by_index ps
    = match first_hit [by_index_strategy element_by_index ps; by_id_strategy sm ps;
                       by_xpath_strategy sm ps; by_text_strategy sm ps;
                       by_tag_class_strategy sm ps] with
      | Some n => Returned n
      | None => Raised (ValueError (not_found_message (get_or ps "index" (VInt 0))
                                     (loc_str ps "element_id") (loc_str ps "xpath")
                                     (loc_str ps "expected_text")))
      end).
  { destruct sm as [|kn sm']; [contradiction|].
    unfold find_element, by_index_strategy, by_id_strategy, by_xpath_strategy,
      by_text_strategy, by_tag_class_strategy, loc_str; cbn [first_hit].
    destruct (element_by_index _); [reflexivity|].
    destruct (if String.eqb _ "" then None else find_in_map _ _); [reflexivity|].
    destruct (if String.eqb _ "" then None else find_in_map _ _); [reflexivity|].
    destruct (if String.eqb _ "" then None else _); [reflexivity|].
    destruct (if _ || _ then None else find_in_map _ _); reflexivity. }
  split; [exact Horder|].
  intros n_index n_id Hi _ _. rewrite Horder. cbn [first_hit]. rewrite Hi. reflexivity.
Qed.

(* ------------------------------------------------------------------ *)
(** ** The planner *)

Lemma insert_sorted_In x y l : In y (insert_sorted x l) <-> In y (x :: l).
Proof.
  induction l as [|z l IH]; simpl; [tauto|].
  destruct (str_ltb z x); simpl; [rewrite IH; simpl; tauto | tauto].
Qed.

Lemma sort_strings_In y l : In y (sort_strings l) <-> In y l.
Proof.
  unfold sort_strings. induction l as [|x l IH]; simpl; [tauto|].
  rewrite insert_sorted_In. simpl. rewrite IH. tauto.
Qed.

Lemma dedup_acc_In seen l y : In y (dedup_acc seen l) <-> In y seen \/ In y l.
Proof.
  revert seen. induction l as [|x l IH]; intros seen; simpl.
  - rewrite <- in_rev. tauto.
  - destruct (existsb (String.eqb x) seen) eqn:E.
    + rewrite IH. apply existsb_exists in E. destruct E as [x' [Hx' Hxx']].
      apply String.eqb_eq in Hxx'. subst x'.
      split; [tauto|]. intros [H|[H|H]]; auto. subst; auto.
    + rewrite IH. simpl. tauto.
Qed.

Lemma dedup_acc_NoDup seen l : NoDup seen -> NoDup (dedup_acc seen l).
Proof.
  revert seen. induction l as [|x l IH]; intros seen Hs; simpl.
  - apply NoDup_rev. exact Hs.
  - destruct (existsb (String.eqb x) seen) eqn:E; apply IH; [exact Hs|].
    constructor; [|exact Hs].
    intros Hin. assert (existsb (String.eqb x) seen = true) as E'.
    { apply existsb_exists. exists x. split; [exact Hin|apply String.eqb_refl]. }
    congruence.
Qed.

Lemma set_in_insertion_order_lists_set : lists_set set_in_insertion_order.
Proof.
  intros l. unfold set_in_insertion_order, dedup. split.
  - apply dedup_acc_NoDup. constructor.
  - intros x. rewrite dedup_acc_In. simpl. tauto.
Qed.

Lemma extract_from_actions_In c rl acts acc st :
  In st (extract_from_actions c rl acts acc) ->
  In st acc \/ exists a n, In a acts /\ convert_action_to_step a n c rl = Some st.
Proof.
  unfold extract_from_actions. revert acc.
  induction acts as [|a acts IH]; simpl; intros acc H; [left; exact H|].
  apply IH in H. destruct H as [H|[a' [n [Ha Hc]]]].
  - destruct (convert_action_to_step a (List.length acc) c rl) eqn:E.
    + destruct H as [<-|H]; [right; exists a, (List.length acc); auto | left; exact H].
    + left; exact H.
  - right; exists a', n; auto.
Qed.

Lemma extract_items_fold_In c rl items acc st :
  In st (fold_left (fun acc it => match hi_model_output it with
                                  | None => acc
                                  | Some acts => extract_from_actions c rl acts acc
                                  end) items acc) ->
  In st acc \/ exists it a n, In it items /\ In a (actions_of it)
                              /\ convert_action_to_step a n c rl = Some st.
Proof.
  revert acc. induction items as [|it items IH]; simpl; intros acc H; [left; exact H|].
  apply IH in H. destruct H as [H|[it' [a [n [Hit [Ha Hc]]]]]].
  - destruct (hi_model_output it) as [acts|] eqn:Ho; [|left; exact H].
    apply extract_from_actions_In in H. destruct H as [H|[a [n [Ha Hc]]]]; [left; exact H|].
    right. exists it, a, n. unfold actions_of. rewrite Ho. auto.
  - right. exists it', a, n. auto.
Qed.

(** Every compiled step comes from one recorded action. *)
Lemma extract_from_items_In c rl items st :
  In st (extract_from_items c rl items) ->
  exists it a n, In it items /\ In a (actions_of it) /\ convert_action_to_step a n c rl = Some st.
Proof.
  unfold extract_from_items. rewrite <- in_rev. intros H.
  apply extract_items_fold_In in H. destruct H as [[]|H]. exact H.
Qed.

Lemma convert_action_to_step_Some a n c rl st :
  convert_action_to_step a n c rl = Some st ->
  exists name ap rest, a = (name, ap) :: rest /\ convertible a = true
    /\ params st = convert_params (action st) ap c rl /\ original_params st = ap.
Proof.
  destruct a as [|[name ap] rest]; simpl; [discriminate|].
  destruct (String.eqb name "mark_result_location") eqn:E; [discriminate|].
  destruct (action_mapping name) eqn:M; [|discriminate].
  intros H; inversion H; subst; clear H.
  exists name, ap, rest. split; [reflexivity|].
  split; [reflexivity|]. auto.
Qed.

Lemma identify_parameters_In x sts :
  In x (identify_parameters sts)
  <-> exists st, In st sts /\ is_parameterized_input st = true
                 /\ x = extract_param_name (as_str (get_or (params st) "xpath" (VStr ""))).
Proof.
  unfold identify_parameters, dedup. rewrite sort_strings_In, dedup_acc_In, in_map_iff.
  simpl. split.
  - intros [[]|[st [Hx Hst]]]. apply filter_In in Hst. exists st. intuition.
  - intros [st [H1 [H2 H3]]]. right. exists st. split; [auto|]. apply filter_In; auto.
Qed.

Lemma create_plan_Returned lset mr p :
  create_plan lset mr = Returned p ->
  mr_success mr = true
  /\ exists rh, mr_raw_history mr = Some rh /\ rh_truthy rh = true
     /\ steps p = extract_steps rh (md_collected_parameters (mr_metadata mr))
                                  (md_result_location (mr_metadata mr))
     /\ pm_required_params (metadata p)
        = lset (identify_parameters (steps p) ++ md_parameter_names (mr_metadata mr))%list.
Proof.
  unfold create_plan. destruct (mr_success mr) eqn:S; simpl; [|discriminate].
  destruct (mr_raw_history mr) as [rh|]; [|discriminate].
  destruct (rh_truthy rh) eqn:T; simpl; [|discriminate].
  intros H; inversion H; subst; clear H.
  split; [reflexivity|]. exists rh. simpl. auto.
Qed.

Lemma required_In lset mr p x :
  lists_set lset -> create_plan lset mr = Returned p ->
  In x (pm_required_params (metadata p))
  <-> In x (identify_parameters (steps p)) \/ In x (md_parameter_names (mr_metadata mr)).
Proof.
  intros Hl Hc. destruct (create_plan_Returned _ _ _ Hc) as [_ [rh [_ [_ [_ Hreq]]]]].
  rewrite Hreq. destruct (Hl (identify_parameters (steps p) ++ md_parameter_names (mr_metadata mr))%list)
    as [_ Hin].
  rewrite Hin, in_app_iff. tauto.
Qed.

Lemma find_parameter_by_value_In t c :
  truthy (find_parameter_by_value t c) = true ->
  In (py_str (find_parameter_by_value t c)) (collected_names c).
Proof.
  unfold find_parameter_by_value, collected_names.
  destruct (String.eqb t "" || negb (truthy (VDict c))); [discriminate|].
  destruct (get_or c "parameters" (VList [])) as [| | | |l|]; try discriminate.
  induction l as [|v l IH]; simpl; [discriminate|].
  destruct v as [| | | | |pd]; try exact IH.
  destruct (String.eqb (py_str (get_or pd "value" (VStr ""))) t).
  - intros H. rewrite H. simpl. left. reflexivity.
  - intros H. apply in_or_app. right. exact (IH H).
Qed.

Lemma find_parameter_by_value_entry t c :
  truthy (find_parameter_by_value t c) = true ->
  exists pd, In pd (collected_entries c)
    /\ get_or pd "name" VNone = find_parameter_by_value t c
    /\ py_str (get_or pd "value" (VStr "")) = t.
Proof.
  unfold find_parameter_by_value, collected_entries.
  destruct (String.eqb t "" || negb (truthy (VDict c))); [discriminate|].
  destruct (get_or c "parameters" (VList [])) as [| | | |l|]; try discriminate.
  induction l as [|v l IH]; simpl; [discriminate|].
  destruct v as [| | | | |pd]; try exact IH.
  destruct (String.eqb (py_str (get_or pd "value" (VStr ""))) t) eqn:E.
  - intros _. exists pd. split; [left; reflexivity|]. split; [reflexivity|].
    apply String.eqb_eq. exact E.
  - intros H. destruct (IH H) as [pd' [H1 H2]]. exists pd'. split; [right; exact H1|exact H2].
Qed.

Lemma dget_dset_same d k v : dget (dset d k v) k = Some v.
Proof.
  induction d as [|[k' v'] d IH]; simpl.
  - rewrite String.eqb_refl. reflexivity.
  - destruct (String.eqb k k') eqn:E; simpl; rewrite E; [reflexivity|exact IH].
Qed.

Lemma enrich_from_actions_has_xpath t acts e :
  dmem e "xpath" = true -> enrich_from_actions t acts e = e.
Proof.
  unfold enrich_from_actions. revert e.
  induction acts as [|a acts IH]; intros e He; simpl; [reflexivity|].
  destruct a as [|[n ap] rest]; [apply IH; exact He|].
  rewrite He, andb_false_r. destruct (py_eq _ t); apply IH; exact He.
Qed.

Lemma enrich_from_actions_no_xpath t acts e :
  dmem e "xpath" = false ->
  enrich_from_actions t acts e
  = match first_some (action_xpath t) acts with Some x => dset e "xpath" x | None => e end.
Proof.
  revert e. induction acts as [|a acts IH]; intros e He; [reflexivity|].
  assert (Hstep : enrich_from_actions t (a :: acts) e
                  = enrich_from_actions t acts
                      (match action_xpath t a with Some x => dset e "xpath" x | None => e end))
    by (destruct a as [|[n ap] rest]; [reflexivity|]; unfold enrich_from_actions; simpl; rewrite He;
        destruct (py_eq _ t), (dmem ap "xpath"), (truthy _); reflexivity).
  rewrite Hstep. simpl. destruct (action_xpath t a) as [x|].
  - apply enrich_from_actions_has_xpath. unfold dmem. rewrite dget_dset_same. reflexivity.
  - apply IH. exact He.
Qed.

Lemma enrich_loop_has_xpath t items e :
  (forall it, In it items -> snapshot_hit t it = None) ->
  dmem e "xpath" = true -> enrich_loop t items e = e.
Proof.
  revert e. induction items as [|it items IH]; intros e Hn He; simpl; [reflexivity|].
  rewrite (Hn it (or_introl eq_refl)). rewrite enrich_from_actions_has_xpath by exact He.
  apply IH; [intros it' Hit'; apply Hn; right; exact Hit'|exact He].
Qed.

(** When the marked index is in no snapshot, the enrichment only picks up
    the xpath of the first recorded action that used the index. *)
Lemma enrich_loop_no_hits t items e :
  (forall it, In it items -> snapshot_hit t it = None) ->
  dmem e "xpath" = false ->
  enrich_loop t items e
  = match first_action_xpath t items with Some x => dset e "xpath" x | None => e end.
Proof.
  revert e. induction items as [|it items IH]; intros e Hn He; simpl; [reflexivity|].
  rewrite (Hn it (or_introl eq_refl)). rewrite enrich_from_actions_no_xpath by exact He.
  unfold first_action_xpath. simpl.
  destruct (first_some (action_xpath t) (actions_of it)) as [x|].
  - apply enrich_loop_has_xpath; [intros it' Hit'; apply Hn; right; exact Hit'|].
    unfold dmem. rewrite dget_dset_same. reflexivity.
  - apply IH; [intros it' Hit'; apply Hn; right; exact Hit'|exact He].
Qed.

(** C1 (amended): for any duplicate-free listing of [set(...)], the
    [required_params] of a compiled plan are duplicate-free and hold exactly
    the names [_extract_param_name] derives from the xpath of each [INPUT]
    step flagged [is_parameterized], together with the [parameter_names] of
    the mapper metadata. *)
Theorem required_params_provenance lset mr p :
  lists_set lset ->
  create_plan lset mr = Returned p ->
  NoDup (pm_required_params (metadata p))
  /\ forall x, In x (pm_required_params (metadata p))
     <-> (exists st, In st (steps p) /\ is_parameterized_input st = true
                     /\ x = extract_param_name (as_str (get_or (params st) "xpath" (VStr ""))))
         \/ In x (md_parameter_names (mr_metadata mr)).
Proof.
  intros Hl Hc. split.
  - destruct (create_plan_Returned _ _ _ Hc) as [_ [rh [_ [_ [_ Hreq]]]]].
    rewrite Hreq. apply Hl.
  - intros x. rewrite (required_In _ _ _ x Hl Hc), identify_parameters_In. tauto.
Qed.

(** C2 (amended): an [INPUT] step of a compiled plan flagged
    [is_parameterized] has its xpath-derived name in [required_params], and
    either its text is the placeholder [{param:NAME}] of a collected
    parameter whose recorded value equalled the typed text (NAME is then in
    [required_params] when the metadata's [parameter_names] list the
    collected names), or its text is the typed text itself, flagged by the
    personal-data heuristic [_should_parameterize]. *)
Theorem parameterized_input_provenance lset mr p st :
  lists_set lset ->
  create_plan lset mr = Returned p ->
  In st (steps p) ->
  action st = INPUT ->
  truthy (get_or (params st) "is_parameterized" VNone) = true ->
  In (extract_param_name (as_str (get_or (params st) "xpath" (VStr ""))))
     (pm_required_params (metadata p))
  /\ ((exists n pd, get_or (params st) "text" VNone = VStr (placeholder n)
                 /\ In pd (collected_entries (md_collected_parameters (mr_metadata mr)))
                 /\ truthy (get_or pd "name" VNone) = true /\ py_str (get_or pd "name" VNone) = n
                 /\ py_str (get_or pd "value" (VStr ""))
                    = as_str (get_or (original_params st) "text" (VStr ""))
                 /\ In n (collected_names (md_collected_parameters (mr_metadata mr)))
                 /\ (incl (collected_names (md_collected_parameters (mr_metadata mr)))
                          (md_parameter_names (mr_metadata mr)) ->
                     In n (pm_required_params (metadata p))))
      \/ (get_or (params st) "text" VNone
          = VStr (as_str (get_or (original_params st) "text" (VStr "")))
          /\ should_parameterize (as_str (get_or (original_params st) "text" (VStr ""))) = true)).
Proof.
  intros Hl Hc Hin Hact Hflag. split.
  - apply (required_In _ _ _ _ Hl Hc). left. apply identify_parameters_In.
    exists st. split; [exact Hin|]. split; [|reflexivity].
    unfold is_parameterized_input. rewrite Hact, Hflag. reflexivity.
  - destruct (create_plan_Returned _ _ _ Hc) as [_ [rh [_ [_ [Hsteps _]]]]].
    assert (Hin' := Hin). rewrite Hsteps in Hin'. unfold extract_steps in Hin'.
    apply extract_from_items_In in Hin'.
    destruct Hin' as [it [a [n [_ [_ Hconv]]]]].
    destruct (convert_action_to_step_Some _ _ _ _ _ Hconv)
      as [name [ap [rest [_ [_ [Hps Hop]]]]]].
    rewrite Hact in Hps. rewrite Hop. rewrite Hps in Hflag |- *.
    unfold convert_params in Hflag |- *.
    destruct (truthy (find_parameter_by_value (as_str (get_or ap "text" (VStr "")))
                        (md_collected_parameters (mr_metadata mr)))) eqn:F.
    + left. destruct (find_parameter_by_value_entry _ _ F) as [pd [Hpn Hpv]].
      eexists _, pd. split; [reflexivity|]. split; [exact Hpn|].
      rewrite (proj1 Hpv). split; [exact F|]. split; [reflexivity|]. split; [exact (proj2 Hpv)|]. split.
      * apply find_parameter_by_value_In. exact F.
      * intros Hincl. apply (required_In _ _ _ _ Hl Hc). right. apply Hincl.
        apply find_parameter_by_value_In. exact F.
    + right. split; [reflexivity|]. exact Hflag.
Qed.

(** C6 (amended): when the marked result location (its index and
    description) has its index in no element-map snapshot of the trace, the
    enriched location is the marker itself, plus the xpath of the first
    recorded action that used that index with a non-empty xpath if there is
    one; and every compiled [EXTRACT] step has exactly the parameters
    [query] (the action's own non-empty query, else the marker's
    description) and [is_final_result = True], with no xpath. *)
Theorem unmatched_result_location lset mr p rh i d :
  mr_raw_history mr = Some rh ->
  md_result_location (mr_metadata mr) = Some [("index", VInt i); ("description", VStr d)] ->
  (forall it, In it (rh_items rh) -> snapshot_hit (VInt i) it = None) ->
  create_plan lset mr = Returned p ->
  enrich_result_location rh [("index", VInt i); ("description", VStr d)]
  = match first_action_xpath (VInt i) (rh_items rh) with
    | Some x => [("index", VInt i); ("description", VStr d); ("xpath", x)]
    | None => [("index", VInt i); ("description", VStr d)]
    end
  /\ forall st, In st (steps p) -> action st = EXTRACT ->
       params st
       = [("query", if truthy (get_or (original_params st) "query" VNone)
                    then get_or (original_params st) "query" VNone else VStr d);
          ("is_final_result", VBool true)].
Proof.
  intros Hrh Hrl Hnone Hc.
  assert (Henr : enrich_result_location rh [("index", VInt i); ("description", VStr d)]
                 = match first_action_xpath (VInt i) (rh_items rh) with
                   | Some x => [("index", VInt i); ("description", VStr d); ("xpath", x)]
                   | None => [("index", VInt i); ("description", VStr d)]
                   end).
  { unfold enrich_result_location. simpl.
    rewrite enrich_loop_no_hits by (exact Hnone || reflexivity).
    destruct (first_action_xpath (VInt i) (rh_items rh)); reflexivity. }
  split; [exact Henr|].
  intros st Hin Hact.
  destruct (create_plan_Returned _ _ _ Hc) as [_ [rh' [Hrh' [_ [Hsteps _]]]]].
  rewrite Hrh in Hrh'. injection Hrh' as <-.
  rewrite Hsteps, Hrl in Hin.
  assert (Hx : extract_steps rh (md_collected_parameters (mr_metadata mr))
                 (Some [("index", VInt i); ("description", VStr d)])
               = extract_from_items (md_collected_parameters (mr_metadata mr))
                   (Some (enrich_result_location rh [("index", VInt i); ("description", VStr d)]))
                   (rh_items rh)) by reflexivity.
  rewrite Hx, Henr in Hin. apply extract_from_items_In in Hin.
  destruct Hin as [it [a [n [_ [_ Hconv]]]]].
  destruct (convert_action_to_step_Some _ _ _ _ _ Hconv)
    as [name [ap [rest [_ [_ [Hps Hop]]]]]].
  rewrite Hps, Hact, Hop.
  destruct (first_action_xpath (VInt i) (rh_items rh)); reflexivity.
Qed.

(** C7 (amended): [create_plan] raises [ValueError] when the mapping was
    unsuccessful, and when its [raw_history] is absent or an empty dict;
    a successful mapping whose history list is non-empty but records no
    convertible action compiles into a plan with no steps whose
    [required_params] are exactly the metadata's [parameter_names]. *)
Theorem create_plan_validation lset mr :
  (mr_success mr = false -> exists m, create_plan lset mr = Raised (ValueError m))
  /\ (mr_success mr = true ->
      (mr_raw_history mr = None
       \/ exists rh, mr_raw_history mr = Some rh /\ rh_history rh = None /\ rh_other_keys rh = []) ->
      create_plan lset mr = Raised (ValueError "Mapper result contains no history data"))
  /\ (lists_set lset -> mr_success mr = true ->
      forall rh, mr_raw_history mr = Some rh -> rh_items rh <> [] ->
      (forall it a, In it (rh_items rh) -> In a (actions_of it) -> convertible a = false) ->
      exists p, create_plan lset mr = Returned p /\ steps p = []
                /\ NoDup (pm_required_params (metadata p))
                /\ forall x, In x (pm_required_params (metadata p))
                             <-> In x (md_parameter_names (mr_metadata mr))).
Proof.
  split; [|split].
  - intros Hs. unfold create_plan. rewrite Hs. eexists. reflexivity.
  - intros Hs Hh. unfold create_plan. rewrite Hs. simpl.
    destruct Hh as [Hn|[rh [Hrh [Hn Hk]]]].
    + rewrite Hn. reflexivity.
    + rewrite Hrh. unfold rh_truthy. rewrite Hn, Hk. reflexivity.
  - intros Hl Hs rh Hrh Hne Hnc.
    assert (Hnil : extract_steps rh (md_collected_parameters (mr_metadata mr))
                     (md_result_location (mr_metadata mr)) = []).
    { destruct (extract_steps rh _ _) as [|st sts] eqn:E; [reflexivity|].
      exfalso. assert (Hin : In st (extract_steps rh (md_collected_parameters (mr_metadata mr))
                                     (md_result_location (mr_metadata mr))))
        by (rewrite E; left; reflexivity).
      unfold extract_steps in Hin. apply extract_from_items_In in Hin.
      destruct Hin as [it [a [n [Hit [Ha Hconv]]]]].
      destruct (convert_action_to_step_Some _ _ _ _ _ Hconv) as [_ [_ [_ [_ [Hcv _]]]]].
      rewrite (Hnc it a Hit Ha) in Hcv. discriminate. }
    assert (Ht : rh_truthy rh = true).
    { unfold rh_items in Hne. unfold rh_truthy.
      destruct (rh_history rh) as [[|it items]|]; [contradiction|reflexivity|contradiction]. }
    destruct (create_plan lset mr) as [p| e |] eqn:Hc.
    + exists p. split; [reflexivity|].
      destruct (create_plan_Returned _ _ _ Hc) as [_ [rh' [Hrh' [_ [Hsteps Hreq]]]]].
      rewrite Hrh in Hrh'. injection Hrh' as <-. rewrite Hnil in Hsteps.
      split; [exact Hsteps|]. split.
      * rewrite Hreq. apply Hl.
      * intros x. rewrite (required_In _ _ _ x Hl Hc), Hsteps. simpl. tauto.
    + exfalso. revert Hc. unfold create_plan. rewrite Hs, Hrh, Ht. discriminate.
    + exfalso. revert Hc. unfold create_plan. rewrite Hs, Hrh, Ht. discriminate.
Qed.

(** C9 (amended): from [WAITING_FOR_INPUT] a session returns to [RUNNING]
    when the requested value is delivered, but moves directly to [FAILED]
    when the wait for the value raises (such as the 300 s timeout of the
    API's callback) and directly to [CANCELLED] when it is cancelled while
    waiting. *)
Theorem waiting_for_input_exits s :
  s_status s = WAITING_FOR_INPUT ->
  (forall r v, s_status (session_step s (InputReturned r v)) = RUNNING)
  /\ (forall r e, s_status (session_step s (InputRaised r e)) = FAILED)
  /\ s_status (session_step s Cancel) = CANCELLED.
Proof.
  intros _. repeat split.
Qed.

(* ------------------------------------------------------------------ *)
(** ** Parameter injection *)










































(* ------------------------------------------------------------------ *)
(** ** Counterexamples *)

(** C1: on the scenario of the specification, [required_params] holds the
    xpath-derived name "insc", which no placeholder of the plan uses. *)
Lemma required_params_not_placeholder_names :
  outcome_map (fun p => (pm_required_params (metadata p), plan_placeholder_names p))
    (create_plan set_in_insertion_order insc_mapper_result)
  = Returned (["insc"; "inscricao"], ["inscricao"]).
Proof. vm_compute. reflexivity. Qed.

(** C2: a typed e-mail address matching no collected value gives an
    [INPUT] step flagged [is_parameterized] whose text has no placeholder. *)
Lemma parameterized_input_without_placeholder :
  outcome_map (fun p => map (fun st => (get_or (params st) "is_parameterized" VNone,
                                        findall_params (as_str (get_or (params st) "text" (VStr "")))))
                          (steps p))
    (create_plan set_in_insertion_order (mr_with [item_email] []))
  = Returned [(VBool true, [])].
Proof. vm_compute. reflexivity. Qed.


(** C4: with [retry_on_error] off, a step whose dispatch raises a
    transient error is attempted once and the run fails, where the same
    browser succeeds on a retry. *)
Lemma no_retry_when_disabled :
  execute_steps nat no_dom no_element flaky_dispatch keep_sleep no_extract no_retry_config 0
    goto_plan []
  = (Returned {| er_status := FAILURE; er_artifacts := []; er_steps_completed := 0;
                 er_total_steps := 1;
                 er_error_message := Some "Step 1 failed: net::ERR_CONNECTION_RESET" |},
     1, [EvAttempt 1 [("url", VStr "https://x")]])
  /\ er_status (match fst (fst (execute_steps nat no_dom no_element flaky_dispatch keep_sleep
                                  no_extract retry_config 0 goto_plan [])) with
                | Returned r => r
                | _ => {| er_status := ERROR; er_artifacts := []; er_steps_completed := 0;
                          er_total_steps := 0; er_error_message := None |}
                end) = SUCCESS.
Proof. split; vm_compute; reflexivity. Qed.

(** C6: the marked index is in no snapshot, yet the enriched location
    gains the xpath of the click on that index, and the [EXTRACT] step's
    query is the action's own, not the marker's description. *)
Lemma result_location_gains_action_xpath :
  enrich_result_location history_23 marker_23
  = [("index", VInt 23); ("description", VStr "valor do IPTU"); ("xpath", VStr "//td[@id='v']")]
  /\ outcome_map (fun p => map params (steps p)) (create_plan set_in_insertion_order mr_marked)
     = Returned [[("index", VInt 23); ("xpath", VStr "//td[@id='v']")];
                 [("query", VStr "IPTU total"); ("is_final_result", VBool true)]].
Proof. split; vm_compute; reflexivity. Qed.

(** C7: a successful mapping with only a [done] action and a collected
    "cpf" compiles to no steps with [required_params = ["cpf"]]; and one
    whose history list is empty compiles without error. *)
Lemma empty_plan_keeps_collected_names :
  outcome_map (fun p => (List.length (steps p), pm_required_params (metadata p)))
    (create_plan set_in_insertion_order (mr_with [item_done] ["cpf"]))
  = Returned (0, ["cpf"])
  /\ outcome_map (fun p => (List.length (steps p), pm_required_params (metadata p)))
       (create_plan set_in_insertion_order (mr_with [] []))
     = Returned (0, []).
Proof. split; vm_compute; reflexivity. Qed.

(** C9: a session waiting for input goes directly to [CANCELLED] when
    cancelled, and directly to [FAILED] when the wait times out. *)
Lemma waiting_to_terminal_directly :
  session_trace new_session [MapObjectiveStart; ask_insc; Cancel]
  = [RUNNING; WAITING_FOR_INPUT; CANCELLED]
  /\ session_trace new_session
       [MapObjectiveStart; ask_insc;
        InputRaised insc_request (TimeoutError "Input request timed out for session s1")]
     = [RUNNING; WAITING_FOR_INPUT; FAILED].
Proof. split; reflexivity. Qed.

(* ------------------------------------------------------------------ *)
(** ** Witnesses *)

Lemma required_params_provenance_witness :
  lists_set set_in_insertion_order
  /\ exists p, create_plan set_in_insertion_order insc_mapper_result = Returned p
     /\ NoDup (pm_required_params (metadata p))
     /\ forall x, In x (pm_required_params (metadata p))
        <-> (exists st, In st (steps p) /\ is_parameterized_input st = true
                        /\ x = extract_param_name (as_str (get_or (params st) "xpath" (VStr ""))))
            \/ In x (md_parameter_names (mr_metadata insc_mapper_result)).
Proof.
  split; [exact set_in_insertion_order_lists_set|].
  eexists. split; [reflexivity|].
  apply (required_params_provenance set_in_insertion_order insc_mapper_result);
    [exact set_in_insertion_order_lists_set|reflexivity].
Defined.

Lemma parameterized_input_provenance_witness :
  exists p st,
    create_plan set_in_insertion_order insc_mapper_result = Returned p
    /\ In st (steps p) /\ action st = INPUT
    /\ truthy (get_or (params st) "is_parameterized" VNone) = true
    /\ In (extract_param_name (as_str (get_or (params st) "xpath" (VStr ""))))
          (pm_required_params (metadata p))
    /\ ((exists n pd, get_or (params st) "text" VNone = VStr (placeholder n)
                   /\ In pd (collected_entries (md_collected_parameters (mr_metadata insc_mapper_result)))
                   /\ truthy (get_or pd "name" VNone) = true /\ py_str (get_or pd "name" VNone) = n
                   /\ py_str (get_or pd "value" (VStr ""))
                      = as_str (get_or (original_params st) "text" (VStr ""))
                   /\ In n (collected_names (md_collected_parameters (mr_metadata insc_mapper_result)))
                   /\ (incl (collected_names (md_collected_parameters (mr_metadata insc_mapper_result)))
                            (md_parameter_names (mr_metadata insc_mapper_result)) ->
                       In n (pm_required_params (metadata p))))
        \/ (get_or (params st) "text" VNone
            = VStr (as_str (get_or (original_params st) "text" (VStr "")))
            /\ should_parameterize (as_str (get_or (original_params st) "text" (VStr ""))) = true)).
Proof.
  do 2 eexists.
  split; [reflexivity|]. split; [simpl; right; left; reflexivity|].
  split; [reflexivity|]. split; [reflexivity|].
  apply (parameterized_input_provenance set_in_insertion_order insc_mapper_result);
    [exact set_in_insertion_order_lists_set|reflexivity|simpl; right; left; reflexivity
    |reflexivity|reflexivity].
Defined.


Lemma retry_once_semantics_witness :
  retry_on_error retry_config = true
  /\ steps goto_plan = ([] ++ goto_step :: [])%list
  /\ execute_action nat no_dom no_element flaky_dispatch keep_sleep no_extract retry_config 0
       (action goto_step) (inject_params (params goto_step) [])
     = (Raised (RuntimeError "net::ERR_CONNECTION_RESET"), 1)
  /\ execute_steps nat no_dom no_element flaky_dispatch keep_sleep no_extract retry_config 0
       goto_plan []
     = (Returned {| er_status := SUCCESS; er_artifacts := []; er_steps_completed := 1;
                    er_total_steps := 1; er_error_message := None |},
        2, [EvAttempt 1 [("url", VStr "https://x")]; EvPause 1000;
            EvAttempt 1 [("url", VStr "https://x")]]).
Proof.
  split; [reflexivity|]. split; [reflexivity|]. split; [reflexivity|].
  assert (Hnil : runs_ok nat no_dom no_element flaky_dispatch keep_sleep no_extract retry_config []
                   0 [] [] 0 [] []) by constructor.
  pose proof (retry_once_semantics nat no_dom no_element flaky_dispatch keep_sleep no_extract
                retry_config [] goto_plan [] goto_step [] 0 0 [] []
                (RuntimeError "net::ERR_CONNECTION_RESET") 1 eq_refl eq_refl Hnil eq_refl) as H.
  cbv zeta in H. destruct H as [_ H].
  assert (Hpost : runs_ok nat no_dom no_element flaky_dispatch keep_sleep no_extract retry_config []
                    2 [] [] 2 [] []) by constructor.
  exact (H [] 2 2 [] [] eq_refl Hpost).
Defined.

Lemma find_element_strategy_order_witness :
  map_ab <> []
  /\ by_index_strategy element_of_map [("index", VInt 0); ("element_id", VStr "target")] = Some node_a
  /\ by_id_strategy map_ab [("index", VInt 0); ("element_id", VStr "target")] = Some node_b
  /\ node_a <> node_b
  /\ find_element (Some map_ab) element_of_map [("index", VInt 0); ("element_id", VStr "target")]
     = Returned node_a.
Proof.
  assert (Hne : map_ab <> []) by discriminate.
  assert (Hab : node_a <> node_b) by discriminate.
  split; [exact Hne|]. split; [reflexivity|]. split; [reflexivity|]. split; [exact Hab|].
  exact (proj2 (find_element_strategy_order map_ab element_of_map
                  [("index", VInt 0); ("element_id", VStr "target")] Hne) node_a node_b
           eq_refl eq_refl Hab).
Defined.

Lemma unmatched_result_location_witness :
  exists p,
    mr_raw_history mr_marked = Some history_23
    /\ md_result_location (mr_metadata mr_marked)
       = Some [("index", VInt 23); ("description", VStr "valor do IPTU")]
    /\ (forall it, In it (rh_items history_23) -> snapshot_hit (VInt 23) it = None)
    /\ create_plan set_in_insertion_order mr_marked = Returned p
    /\ enrich_result_location history_23 [("index", VInt 23); ("description", VStr "valor do IPTU")]
       = match first_action_xpath (VInt 23) (rh_items history_23) with
         | Some x => [("index", VInt 23); ("description", VStr "valor do IPTU"); ("xpath", x)]
         | None => [("index", VInt 23); ("description", VStr "valor do IPTU")]
         end
    /\ forall st, In st (steps p) -> action st = EXTRACT ->
         params st
         = [("query", if truthy (get_or (original_params st) "query" VNone)
                      then get_or (original_params st) "query" VNone else VStr "valor do IPTU");
            ("is_final_result", VBool true)].
Proof.
  assert (Hn : forall it, In it (rh_items history_23) -> snapshot_hit (VInt 23) it = None).
  { intros it Hit. simpl in Hit. destruct Hit as [<-|[<-|[]]]; reflexivity. }
  eexists. split; [reflexivity|]. split; [reflexivity|]. split; [exact Hn|].
  split; [reflexivity|].
  apply (unmatched_result_location set_in_insertion_order mr_marked _ history_23 23 "valor do IPTU");
    [reflexivity|reflexivity|exact Hn|reflexivity].
Defined.

Lemma create_plan_validation_witness :
  exists p, create_plan set_in_insertion_order (mr_with [item_done] ["cpf"]) = Returned p
    /\ steps p = []
    /\ NoDup (pm_required_params (metadata p))
    /\ forall x, In x (pm_required_params (metadata p))
                 <-> In x (md_parameter_names (mr_metadata (mr_with [item_done] ["cpf"]))).
Proof.
  apply (proj2 (proj2 (create_plan_validation set_in_insertion_order (mr_with [item_done] ["cpf"])))
           set_in_insertion_order_lists_set eq_refl _ eq_refl).
  - discriminate.
  - intros it a Hit Ha. simpl in Hit. destruct Hit as [<-|[]].
    simpl in Ha. destruct Ha as [<-|[]]. reflexivity.
Defined.

Lemma waiting_for_input_exits_witness :
  s_status waiting_session = WAITING_FOR_INPUT
  /\ s_status (session_step waiting_session (InputReturned insc_request "0.000.001-8")) = RUNNING
  /\ s_status (session_step waiting_session
                 (InputRaised insc_request (TimeoutError "Input request timed out for session s1")))
     = FAILED
  /\ s_status (session_step waiting_session Cancel) = CANCELLED.
Proof.
  destruct (waiting_for_input_exits waiting_session eq_refl) as [H1 [H2 H3]].
  split; [reflexivity|]. split; [apply H1|]. split; [apply H2|exact H3].
Defined.

Lemma execute_steps_counters_witness :
  exists r b' l,
    execute_steps nat no_dom no_element flaky_dispatch keep_sleep no_extract no_retry_config 0
      goto_plan [] = (Returned r, b', l)
    /\ 0 <= er_steps_completed r <= er_total_steps r
    /\ (er_status r = SUCCESS <-> er_steps_completed r = er_total_steps r)
    /\ (er_status r = FAILURE -> er_steps_completed r < er_total_steps r).
Proof.
  do 3 eexists. split; [reflexivity|].
  eapply (execute_steps_counters nat no_dom no_element flaky_dispatch keep_sleep no_extract
            no_retry_config 0 goto_plan []).
  reflexivity.
Defined.

(* ------------------------------------------------------------------ *)
(** ** Proofs about the parameter collector *)

Lemma aget_aset {A} (d : list (string * A)) k v m :
  aget (aset d k v) m = if String.eqb m k then Some v else aget d m.
Proof.
  induction d as [|[k' v'] d IH]; simpl; [reflexivity|].
  destruct (String.eqb_spec k k') as [->|Hk]; simpl.
  - destruct (String.eqb m k'); reflexivity.
  - rewrite IH. destruct (String.eqb_spec m k) as [Hm|Hm].
    + subst m. apply String.eqb_neq in Hk. rewrite Hk. reflexivity.
    + reflexivity.
Qed.

Lemma aget_adel {A} (d : list (string * A)) k m :
  aget (adel d k) m = if String.eqb m k then None else aget d m.
Proof.
  unfold adel. induction d as [|[k' v'] d IH]; simpl; [destruct (String.eqb m k); reflexivity|].
  destruct (String.eqb_spec k k') as [->|Hk]; simpl.
  - rewrite IH. destruct (String.eqb_spec m k'); reflexivity.
  - rewrite IH. destruct (String.eqb_spec m k) as [Hm|Hm].
    + subst m. apply String.eqb_neq in Hk. rewrite Hk. reflexivity.
    + reflexivity.
Qed.

Lemma keys_aset {A} (d : list (string * A)) k v :
  map fst (aset d k v)
  = if existsb (String.eqb k) (map fst d) then map fst d else (map fst d ++ [k])%list.
Proof.
  induction d as [|[k' v'] d IH]; simpl; [reflexivity|].
  destruct (String.eqb k k'); simpl; [reflexivity|].
  rewrite IH. destruct (existsb (String.eqb k) (map fst d)); reflexivity.
Qed.

Lemma existsb_rev {A} (f : A -> bool) l : existsb f (rev l) = existsb f l.
Proof.
  induction l as [|x l IH]; simpl; [reflexivity|].
  rewrite existsb_app, IH. simpl. rewrite orb_false_r, orb_comm. reflexivity.
Qed.

Lemma dedup_acc_fold seen l : dedup_acc seen l = fold_left dstep l (rev seen).
Proof.
  revert seen. induction l as [|x l IH]; intros seen; simpl; [reflexivity|].
  unfold dstep at 2. rewrite existsb_rev.
  destruct (existsb (String.eqb x) seen); rewrite IH; reflexivity.
Qed.

Lemma dedup_fold l : dedup l = fold_left dstep l [].
Proof. unfold dedup. apply dedup_acc_fold. Qed.

Lemma keys_collect ps n v l x d e s :
  map fst (collect ps n v l x d e s) = dstep (map fst ps) n.
Proof. unfold collect, dstep. apply keys_aset. Qed.

(** [collect] then [get_parameter]: the name now maps to the new parameter,
    built from the call's arguments, every other name keeps its parameter,
    and [collection_count] goes up by one whether the name was new or not.
    The example defaults to the value; the label defaults to the name's
    [str.title()] with [_] read as a space, for names whose title case is
    again a string of this model (no [µ] or [ÿ]). *)
Theorem pc_collect_get c n v l x d e s :
  pc_collection_count (pc_collect c n v l x d e s) = S (pc_collection_count c)
  /\ exists p,
      (forall m, pc_get_parameter (pc_collect c n v l x d e s) m
                 = if String.eqb m n then Some p else pc_get_parameter c m)
      /\ cp_name p = n /\ cp_value p = v /\ cp_xpath p = x /\ cp_description p = d
      /\ cp_collected_at_step p = s
      /\ (all_chars title_in_latin1 n = true ->
          cp_label p = (match l with
                       | Some l' => if String.eqb l' "" then title_aux false (replace_char "_" " " n)
                                    else l'
                       | None => title_aux false (replace_char "_" " " n)
                       end))
      /\ cp_example p = (match e with
                         | Some e' => if String.eqb e' "" then v else e'
                         | None => v
                         end).
Proof.
  split; [reflexivity|].
  eexists. split.
  - intros m. unfold pc_get_parameter, pc_collect, collect. cbn [pc_parameters].
    rewrite aget_aset. reflexivity.
  - cbn. repeat split. intros _. destruct l; reflexivity.
Qed.

Lemma collector_run_names ops :
  forall c acc,
    map fst (pc_parameters c) = fold_left dstep acc [] ->
    pc_collection_count c = List.length acc ->
    let acc' := fold_left (fun acc op => match op with
                                         | CCollect n _ _ _ _ _ _ => (acc ++ [n])%list
                                         | CClear => []
                                         end) ops acc in
    map fst (pc_parameters (collector_run c ops)) = fold_left dstep acc' []
    /\ pc_collection_count (collector_run c ops) = List.length acc'.
Proof.
  unfold collector_run.
  induction ops as [|op ops IH]; intros c acc Hk Hc; simpl; [split; assumption|].
  apply IH.
  - destruct op as [n v l x d e s|]; simpl; [|reflexivity].
    rewrite keys_collect, Hk, fold_left_app. reflexivity.
  - destruct op as [n v l x d e s|]; simpl; [|reflexivity].
    rewrite Hc, length_app. simpl. lia.
Qed.

(** From a fresh collector, after any sequence of [collect] and [clear]
    calls, [get_parameter_names()] lists the distinct names collected since
    the last [clear] in first-collection order, while [collection_count] is
    the number of [collect] calls since then (repeated names included). *)
Theorem collector_names_and_count ops :
  pc_get_parameter_names (collector_run pc_new ops) = dedup (names_since_clear ops)
  /\ pc_collection_count (collector_run pc_new ops) = List.length (names_since_clear ops).
Proof.
  unfold pc_get_parameter_names, names_since_clear. rewrite dedup_fold.
  apply collector_run_names; reflexivity.
Qed.

Lemma NoDup_snoc (l : list string) x : NoDup l -> ~ In x l -> NoDup (l ++ [x]).
Proof.
  induction l as [|a l IH]; intros Hl Hx; simpl; [constructor; [intros []|constructor]|].
  inversion Hl; subst. constructor.
  - intros Hin. apply in_app_or in Hin. destruct Hin as [Hin|[<-|[]]]; [tauto|].
    apply Hx. left. reflexivity.
  - apply IH; [assumption|]. intros Hin. apply Hx. right. exact Hin.
Qed.

Lemma existsb_eqb_In k l : existsb (String.eqb k) l = true <-> In k l.
Proof.
  rewrite existsb_exists. split.
  - intros [k' [Hin Heq]]. apply String.eqb_eq in Heq. subst. exact Hin.
  - intros Hin. exists k. split; [exact Hin|apply String.eqb_refl].
Qed.

Lemma NoDup_dstep l x : NoDup l -> NoDup (dstep l x).
Proof.
  unfold dstep. intros Hl. destruct (existsb (String.eqb x) l) eqn:E; [exact Hl|].
  apply NoDup_snoc; [exact Hl|]. intros Hin. apply existsb_eqb_In in Hin. congruence.
Qed.

Lemma Forall_aset_name (d : list (string * collected_parameter)) p :
  Forall (fun kv => fst kv = cp_name (snd kv)) d ->
  Forall (fun kv => fst kv = cp_name (snd kv)) (aset d (cp_name p) p).
Proof.
  induction d as [|[k' v'] d IH]; intros Hd; simpl; [constructor; [reflexivity|constructor]|].
  inversion Hd; subst. destruct (String.eqb_spec (cp_name p) k') as [Hk|Hk].
  - constructor; [simpl; symmetry; exact Hk|exact H2].
  - constructor; [exact H1|apply IH; exact H2].
Qed.

Lemma pc_wf_collect ps n v l x d e s : pc_wf ps -> pc_wf (collect ps n v l x d e s).
Proof.
  intros [Hk Hn]. split.
  - rewrite keys_collect. apply NoDup_dstep. exact Hk.
  - unfold collect. cbv zeta.
    match goal with |- Forall _ (aset ps n ?r) => exact (Forall_aset_name ps r Hn) end.
Qed.

Lemma pc_wf_run ops : forall c, pc_wf (pc_parameters c) -> pc_wf (pc_parameters (collector_run c ops)).
Proof.
  unfold collector_run. induction ops as [|op ops IH]; intros c Hc; simpl; [exact Hc|].
  apply IH. destruct op; simpl.
  - apply pc_wf_collect. exact Hc.
  - split; constructor.
Qed.

Lemma aset_absent {A} (d : list (string * A)) k v :
  ~ In k (map fst d) -> aset d k v = (d ++ [(k, v)])%list.
Proof.
  induction d as [|[k' v'] d IH]; intros Hk; simpl; [reflexivity|].
  destruct (String.eqb_spec k k') as [E|E].
  - exfalso. apply Hk. left. symmetry. exact E.
  - rewrite IH; [reflexivity|]. intros Hin. apply Hk. right. exact Hin.
Qed.

Lemma from_dict_fold ps :
  forall acc, pc_wf (acc ++ ps)%list ->
  fold_left (fun a p => aset a (cp_name p) p) (map snd ps) acc = (acc ++ ps)%list.
Proof.
  induction ps as [|[k p] ps IH]; intros acc [Hk Hn]; simpl; [rewrite app_nil_r; reflexivity|].
  apply Forall_app in Hn. destruct Hn as [Hna Hnp]. inversion Hnp; subst. simpl in H1.
  rewrite <- H1. rewrite aset_absent.
  - replace (acc ++ (k, p) :: ps)%list with ((acc ++ [(k, p)]) ++ ps)%list
      by (rewrite <- app_assoc; reflexivity).
    apply IH. rewrite <- app_assoc. split; [exact Hk|].
    apply Forall_app. split; [exact Hna|exact Hnp].
  - rewrite map_app in Hk. simpl in Hk. intros Hin.
    apply NoDup_remove_2 in Hk. apply Hk. apply in_or_app. left. exact Hin.
Qed.

(** [from_dict] inverts [to_dict] (up to the [model_dump] /
    [model_validate] of each parameter): for a collector built by any
    sequence of [collect] and [clear] calls, [from_dict(to_dict())] has
    the same parameters, in the same order, and the same
    [collection_count]. *)
Theorem collector_dict_round_trip ops :
  pc_from_dict (pc_to_data (collector_run pc_new ops)) = collector_run pc_new ops.
Proof.
  pose proof (pc_wf_run ops pc_new (conj (NoDup_nil _) (Forall_nil _))) as Hwf.
  destruct (collector_run pc_new ops) as [ps cnt]. simpl in Hwf.
  unfold pc_from_dict, pc_to_data, pc_list_parameters. cbn [cd_parameters cd_count pc_parameters
  pc_collection_count].
  rewrite (from_dict_fold ps []); [reflexivity|exact Hwf].
Qed.

Lemma from_dict_keys l :
  forall acc, map fst (fold_left (fun a p => aset a (cp_name p) p) l acc)
              = fold_left dstep (map cp_name l) (map fst acc).
Proof.
  induction l as [|p l IH]; intros acc; simpl; [reflexivity|].
  rewrite IH, keys_aset. reflexivity.
Qed.

Lemma from_dict_get l n :
  aget (fold_left (fun a p => aset a (cp_name p) p) l []) n
  = find (fun p => String.eqb (cp_name p) n) (rev l).
Proof.
  induction l as [|p l IH] using rev_ind; simpl; [reflexivity|].
  rewrite fold_left_app, rev_app_distr. simpl. rewrite aget_aset, IH, String.eqb_sym.
  reflexivity.
Qed.

(** [from_dict] on data without a ["count"] key: it keeps one entry per
    name, in the order names first occur, holding the last parameter of
    that name, and sets [collection_count] to the number of distinct names
    (not the number of entries). *)
Theorem collector_from_dict_without_count l :
  let c := pc_from_dict {| cd_parameters := Some l; cd_count := None |} in
  pc_get_parameter_names c = dedup (map cp_name l)
  /\ pc_collection_count c = List.length (dedup (map cp_name l))
  /\ forall n, pc_get_parameter c n = find (fun p => String.eqb (cp_name p) n) (rev l).
Proof.
  cbn zeta. unfold pc_from_dict, pc_get_parameter_names, pc_get_parameter.
  cbn [cd_parameters cd_count pc_parameters pc_collection_count].
  rewrite dedup_fold, from_dict_keys. simpl. split; [reflexivity|]. split.
  - rewrite <- (length_map fst), from_dict_keys. reflexivity.
  - intros n. apply from_dict_get.
Qed.

Lemma pc_to_dict_find c v :
  find_parameter_by_value v (pc_to_dict c)
  = if String.eqb v "" then VNone
    else match find (fun p => String.eqb (cp_value p) v) (pc_list_parameters c) with
         | Some p => VStr (cp_name p)
         | None => VNone
         end.
Proof.
  unfold find_parameter_by_value, pc_to_dict.
  destruct (String.eqb v ""); [reflexivity|]. cbn -[cp_dump].
  induction (pc_list_parameters c) as [|p ps IH]; [reflexivity|].
  cbn. destruct (String.eqb (cp_value p) v); [reflexivity|exact IH].
Qed.

(** The planner reads the collector's [to_dict()]: for a non-empty value,
    [_find_parameter_by_value] returns the name of the first collected
    parameter (in dict order) holding that value, and [None] when no
    parameter holds it; for the empty string it returns [None]. *)
Theorem collector_find_parameter_by_value c v :
  find_parameter_by_value v (pc_to_dict c)
  = if String.eqb v "" then VNone
    else match find (fun p => String.eqb (cp_value p) v) (pc_list_parameters c) with
         | Some p => VStr (cp_name p)
         | None => VNone
         end.
Proof.
  apply pc_to_dict_find.
Qed.

(** An [input] action typing a value the interactive session collected
    becomes a parameterized step: when the text is non-empty, the first
    collected parameter holding it is [p] and [p]'s name is non-empty, the
    step's [text] is [{param:<name of p>}] and [is_parameterized] is true. *)
Theorem collected_value_parameterized c op rl p :
  as_str (get_or op "text" (VStr "")) <> "" ->
  find (fun q => String.eqb (cp_value q) (as_str (get_or op "text" (VStr ""))))
       (pc_list_parameters c) = Some p ->
  cp_name p <> "" ->
  get_or (convert_params INPUT op (pc_to_dict c) rl) "text" VNone = VStr (placeholder (cp_name p))
  /\ get_or (convert_params INPUT op (pc_to_dict c) rl) "is_parameterized" VNone = VBool true.
Proof.
  intros Ht Hf Hn. unfold convert_params. cbv zeta.
  rewrite pc_to_dict_find, Hf. apply String.eqb_neq in Ht. rewrite Ht.
  apply String.eqb_neq in Hn. unfold truthy. rewrite Hn. simpl. split; reflexivity.
Qed.

(* ------------------------------------------------------------------ *)
(** ** Proofs about the session and the session manager *)

Lemma session_step_names s op :
  incl (map fst (s_parameters s)) (map fst (s_parameters (session_step s op)))
  /\ (NoDup (map fst (s_parameters s)) -> NoDup (map fst (s_parameters (session_step s op)))).
Proof.
  destruct op; simpl; try (split; [apply incl_refl|tauto]).
  rewrite keys_collect. split.
  - unfold dstep. destruct (existsb _ _); [apply incl_refl|]. apply incl_appl, incl_refl.
  - intros H. apply NoDup_dstep. exact H.
Qed.

Lemma session_run_names ops :
  forall s,
    incl (map fst (s_parameters s)) (map fst (s_parameters (session_run s ops)))
    /\ (NoDup (map fst (s_parameters s)) -> NoDup (map fst (s_parameters (session_run s ops)))).
Proof.
  unfold session_run. induction ops as [|op ops IH]; intros s; simpl; [split; [apply incl_refl|tauto]|].
  destruct (session_step_names s op) as [H1 H2]. destruct (IH (session_step s op)) as [H3 H4].
  split; [eapply incl_tran; eassumption|tauto].
Qed.

(** Over any sequence of calls on a new session, the collected parameters
    hold each name once, and a name once collected is never dropped by a
    later call ([complete], [fail], [cancel], a failed request, another
    request for the same name). *)
Theorem session_parameters_kept ops1 ops2 :
  NoDup (map fst (s_parameters (session_run new_session ops1)))
  /\ incl (map fst (s_parameters (session_run new_session ops1)))
          (map fst (s_parameters (session_run new_session (ops1 ++ ops2)))).
Proof.
  split.
  - apply (proj2 (session_run_names ops1 new_session)). constructor.
  - unfold session_run. rewrite fold_left_app. apply (session_run_names ops2).
Qed.

(** [current_input_request] is assigned only by [request_input] (set, then
    cleared when the value comes back) and [complete]: after [fail],
    [cancel], or a failed or callback-less request, a session still
    reports the request it was waiting on. *)
Theorem request_kept_without_setters s ops :
  forallb (fun op => negb (sets_request op)) ops = true ->
  s_current_input_request (session_run s ops) = s_current_input_request s.
Proof.
  unfold session_run. revert s. induction ops as [|op ops IH]; intros s H; simpl; [reflexivity|].
  simpl in H. apply andb_prop in H. destruct H as [H1 H2].
  rewrite (IH _ H2). destruct op; simpl in *; try discriminate; reflexivity.
Qed.

Lemma fut_state_snoc fs x : fut_state (fs ++ [x])%list (List.length fs) = x.
Proof. unfold fut_state. apply nth_middle. Qed.

Lemma list_set_snoc {A} (l : list A) x y : list_set (l ++ [x])%list (List.length l) y = (l ++ [y])%list.
Proof. induction l as [|a l IH]; simpl; [reflexivity|rewrite IH; reflexivity]. Qed.

Lemma pending_begin m id r k :
  aget (sm_pending (snd (sm_request_input_begin m id r))) k
  = if String.eqb k id
    then Some {| pi_request := r; pi_future := List.length (sm_futures m) |}
    else aget (sm_pending m) k.
Proof. unfold sm_request_input_begin. simpl. apply aget_aset. Qed.

(** [request_input] answered by [provide_input]: while it waits, the
    request is the session's pending input; the first [provide_input]
    returns [True]; a second one returns [False] and changes nothing; the
    waiting call returns the first value, and afterwards no input is
    pending for the session. *)
Theorem sm_request_answered m id r v1 v2 :
  let f := fst (sm_request_input_begin m id r) in
  let m1 := snd (sm_request_input_begin m id r) in
  let m2 := snd (sm_provide_input m1 id v1) in
  sm_get_pending_input m1 id = Some r
  /\ fst (sm_provide_input m1 id v1) = true
  /\ sm_provide_input m2 id v2 = (false, m2)
  /\ fst (sm_request_input_end m2 id f) = Returned v1
  /\ sm_get_pending_input (snd (sm_request_input_end m2 id f)) id = None.
Proof.
  cbv zeta. unfold sm_get_pending_input, sm_provide_input.
  rewrite !pending_begin, String.eqb_refl. cbn [pi_request pi_future].
  unfold sm_request_input_begin. cbn [fst snd sm_futures].
  rewrite fut_state_snoc. cbn [future_done negb fst snd].
  unfold with_futures. cbn [sm_pending sm_futures]. rewrite aget_aset, String.eqb_refl.
  cbn [pi_future]. rewrite list_set_snoc, fut_state_snoc. cbn [future_done negb].
  repeat split; try reflexivity.
  all: unfold sm_request_input_end, with_pending; cbn [sm_futures sm_pending fst snd];
       rewrite list_set_snoc, fut_state_snoc; cbn [fst snd sm_pending];
       rewrite ?aget_adel, ?String.eqb_refl; reflexivity.
Qed.

(** [request_input] that nobody answers: when [wait_for] gives up, the
    call raises [TimeoutError('Input request timed out for session <id>')],
    the session's pending entry is gone, and a late [provide_input] for the
    session returns [False]. *)
Theorem sm_request_timeout m id r v :
  let f := fst (sm_request_input_begin m id r) in
  let m1 := snd (sm_request_input_begin m id r) in
  fst (sm_request_input_end m1 id f)
    = Raised (TimeoutError ("Input request timed out for session " ++ id))
  /\ sm_get_pending_input (snd (sm_request_input_end m1 id f)) id = None
  /\ fst (sm_provide_input (snd (sm_request_input_end m1 id f)) id v) = false.
Proof.
  cbv zeta. unfold sm_request_input_begin, sm_request_input_end. cbn [fst snd sm_futures].
  rewrite fut_state_snoc. unfold sm_get_pending_input, sm_provide_input, with_futures, with_pending.
  cbn [fst snd sm_pending]. rewrite aget_adel, String.eqb_refl. repeat split; reflexivity.
Qed.

Lemma sessions_begin m id r :
  sm_sessions (snd (sm_request_input_begin m id r)) = sm_sessions m.
Proof. reflexivity. Qed.

(** [cancel_session] while [request_input] waits: it returns [True], the
    stored session is [CANCELLED], a later [provide_input] returns [False],
    and the waiting call ends with [CancelledError] (not an [Exception]),
    leaving no pending input for the session. *)
Theorem sm_cancel_while_waiting m id r v :
  sm_get_session m id <> None ->
  let f := fst (sm_request_input_begin m id r) in
  let m1 := snd (sm_request_input_begin m id r) in
  let m2 := snd (sm_cancel_session m1 id) in
  fst (sm_cancel_session m1 id) = true
  /\ option_map s_status (sm_get_session m2 id) = Some CANCELLED
  /\ fst (sm_provide_input m2 id v) = false
  /\ fst (sm_request_input_end m2 id f) = Interrupted
  /\ sm_get_pending_input (snd (sm_request_input_end m2 id f)) id = None.
Proof.
  intros Hs. cbv zeta. unfold sm_get_session in *.
  unfold sm_cancel_session. rewrite sessions_begin.
  destruct (aget (sm_sessions m) id) as [s|] eqn:E; [|congruence].
  rewrite pending_begin, String.eqb_refl. cbn [pi_future].
  unfold sm_request_input_begin. cbn [fst snd sm_futures]. rewrite fut_state_snoc.
  cbn [future_done negb fst snd]. unfold with_futures, with_sessions.
  cbn [sm_sessions sm_pending sm_futures]. rewrite list_set_snoc.
  repeat split.
  - rewrite aget_aset, String.eqb_refl. reflexivity.
  - unfold sm_provide_input. cbn [sm_pending sm_futures]. rewrite aget_aset, String.eqb_refl.
    cbn [pi_future]. rewrite fut_state_snoc. reflexivity.
  - unfold sm_request_input_end. cbn [sm_futures]. rewrite fut_state_snoc. reflexivity.
  - unfold sm_request_input_end, sm_get_pending_input, with_pending. cbn [sm_futures sm_pending].
    rewrite fut_state_snoc. cbn [snd sm_pending]. rewrite aget_adel, String.eqb_refl. reflexivity.
Qed.

(** [delete_session]: when the id has a session, it returns [True] and
    afterwards the id has no session, no pending input and no stored
    result, every other id keeping its own; when the id has no session, it
    returns [False] and changes nothing, even a pending input or a stored
    result under that id. *)
Theorem sm_delete_session_spec m id :
  match sm_delete_session m id with
  | (true, m') =>
      sm_get_session m id <> None
      /\ forall k,
          sm_get_session m' k = (if String.eqb k id then None else sm_get_session m k)
          /\ sm_get_pending_input m' k = (if String.eqb k id then None else sm_get_pending_input m k)
          /\ sm_get_result m' k = (if String.eqb k id then None else sm_get_result m k)
  | (false, m') => sm_get_session m id = None /\ m' = m
  end.
Proof.
  unfold sm_delete_session, sm_get_session.
  destruct (aget (sm_sessions m) id) as [s|] eqn:E; [|split; reflexivity].
  split; [congruence|]. intros k. unfold sm_get_pending_input, sm_get_result. cbn.
  rewrite !aget_adel. destruct (String.eqb k id); repeat split; reflexivity.
Qed.

(** [delete_session] while [request_input] waits on the deleted
    session: the request can no longer be answered ([provide_input]
    returns [False]) and the waiting call ends in [TimeoutError]. *)
Theorem sm_delete_while_waiting m id r v :
  sm_get_session m id <> None ->
  let f := fst (sm_request_input_begin m id r) in
  let m1 := snd (sm_request_input_begin m id r) in
  let m2 := snd (sm_delete_session m1 id) in
  fst (sm_delete_session m1 id) = true
  /\ fst (sm_provide_input m2 id v) = false
  /\ fst (sm_request_input_end m2 id f)
     = Raised (TimeoutError ("Input request timed out for session " ++ id)).
Proof.
  intros Hs. cbv zeta. unfold sm_get_session in *. unfold sm_delete_session.
  rewrite sessions_begin.
  destruct (aget (sm_sessions m) id) as [s|] eqn:E; [|congruence].
  cbn [fst snd]. repeat split.
  - unfold sm_provide_input. cbn [sm_pending]. rewrite aget_adel, String.eqb_refl. reflexivity.
  - unfold sm_request_input_begin, sm_request_input_end. cbn [fst snd sm_futures].
    rewrite fut_state_snoc. reflexivity.
Qed.

(** [create_session] on an id already in use replaces its session by a
    fresh one ([INITIALIZED], no parameters, no request), and leaves the
    pending input and the stored result under that id in place. *)
Theorem sm_create_session_replaces m id :
  forall k,
    sm_get_session (sm_create_session m id) k
      = (if String.eqb k id then Some new_session else sm_get_session m k)
    /\ sm_get_pending_input (sm_create_session m id) k = sm_get_pending_input m k
    /\ sm_get_result (sm_create_session m id) k = sm_get_result m k.
Proof.
  intros k. unfold sm_get_session, sm_create_session, with_sessions. cbn [sm_sessions].
  rewrite aget_aset. repeat split; reflexivity.
Qed.

(* ------------------------------------------------------------------ *)
(** ** Proofs about plan names *)

Lemma sub_spaces_length b l : List.length (sub_spaces b l) <= List.length l.
Proof.
  revert b. induction l as [|c l IH]; intros b; simpl; [lia|].
  pose proof (IH true). pose proof (IH false).
  destruct (is_space c); [destruct b|]; simpl; lia.
Qed.

Lemma lstrip_us_suffix l : exists pre, l = (pre ++ lstrip_us l)%list.
Proof.
  induction l as [|c l IH]; simpl; [exists []; reflexivity|].
  destruct (Ascii.eqb c "_"); [|exists []; reflexivity].
  destruct IH as [pre Hp]. exists (c :: pre). simpl. rewrite <- Hp. reflexivity.
Qed.

Lemma lstrip_us_head l : hd_error (lstrip_us l) <> Some "_"%char.
Proof.
  induction l as [|c l IH]; simpl; [discriminate|].
  destruct (Ascii.eqb_spec c "_") as [E|E]; [exact IH|].
  simpl. intros H. inversion H. contradiction.
Qed.

Lemma strip_us_length l : List.length (strip_us l) <= List.length l.
Proof.
  unfold strip_us. rewrite length_rev.
  destruct (lstrip_us_suffix l) as [p1 H1]. destruct (lstrip_us_suffix (rev (lstrip_us l))) as [p2 H2].
  assert (List.length (rev (lstrip_us l)) = List.length p2 + List.length (lstrip_us (rev (lstrip_us l))))
    by (rewrite H2 at 1; apply length_app).
  assert (List.length l = List.length p1 + List.length (lstrip_us l)) by (rewrite H1 at 1; apply length_app).
  rewrite length_rev in *. lia.
Qed.

Lemma Forall_strip_us (P : ascii -> Prop) l : Forall P l -> Forall P (strip_us l).
Proof.
  intros H. unfold strip_us. apply Forall_rev.
  destruct (lstrip_us_suffix (rev (lstrip_us l))) as [p2 H2].
  destruct (lstrip_us_suffix l) as [p1 H1].
  rewrite H1 in H. apply Forall_app in H. destruct H as [_ H].
  apply Forall_rev in H. rewrite H2 in H. apply Forall_app in H. tauto.
Qed.

Lemma Forall_sub_spaces b l :
  Forall (fun c => name_char c = true) l ->
  Forall (fun c => (is_lower c || is_digit c || Ascii.eqb c "_" || Ascii.eqb c "-") = true)
         (sub_spaces b l).
Proof.
  revert b. induction l as [|c l IH]; intros b H; simpl; [constructor|].
  inversion H; subst. destruct (is_space c) eqn:Es; [destruct b|].
  - apply IH; assumption.
  - constructor; [reflexivity|apply IH; assumption].
  - constructor; [|apply IH; assumption].
    unfold name_char in H2. rewrite Es in H2. rewrite orb_false_r in H2.
    destruct (is_lower c), (is_digit c); simpl in *; try reflexivity.
    rewrite H2, orb_true_r. reflexivity.
Qed.

Lemma name_char_not_us c : name_char c = true -> Ascii.eqb c "_" = false.
Proof.
  intros H. destruct (Ascii.eqb_spec c "_") as [->|E]; [discriminate H|reflexivity].
Qed.

Lemma double_cons c x :
  (exists l1 l2, c :: x = (l1 ++ "_"%char :: "_"%char :: l2)%list) ->
  (c = "_"%char /\ hd_error x = Some "_"%char) \/ (exists l1 l2, x = (l1 ++ "_"%char :: "_"%char :: l2)%list).
Proof.
  intros [[|d l1] [l2 H]]; simpl in H; inversion H; subst.
  - left. split; reflexivity.
  - right. exists l1, l2. reflexivity.
Qed.

Lemma sub_spaces_no_double b l :
  Forall (fun c => name_char c = true) l ->
  ~ (exists l1 l2, sub_spaces b l = (l1 ++ "_"%char :: "_"%char :: l2)%list)
  /\ (b = true -> hd_error (sub_spaces b l) <> Some "_"%char).
Proof.
  revert b. induction l as [|c l IH]; intros b H; simpl.
  - split; [intros [[|? ?] [? E]]; discriminate E|discriminate].
  - inversion H; subst. destruct (IH true H3) as [IHt IHh]. destruct (IH false H3) as [IHf _].
    destruct (is_space c) eqn:Es; [destruct b|].
    + split; [exact IHt|intros _; apply IHh; reflexivity].
    + split; [|discriminate]. intros Hd. apply double_cons in Hd.
      destruct Hd as [[_ Hh]|Hd]; [exact (IHh eq_refl Hh)|exact (IHt Hd)].
    + pose proof (name_char_not_us c H2) as Hc. split.
      * intros Hd. apply double_cons in Hd. destruct Hd as [[E _]|Hd]; [subst; discriminate Hc|exact (IHf Hd)].
      * intros _ Hh. simpl in Hh. inversion Hh. subst. discriminate Hc.
Qed.

Lemma strip_us_no_double l :
  ~ (exists l1 l2, l = (l1 ++ "_"%char :: "_"%char :: l2)%list) ->
  ~ (exists l1 l2, strip_us l = (l1 ++ "_"%char :: "_"%char :: l2)%list).
Proof.
  intros Hl [l1 [l2 E]]. apply Hl. unfold strip_us in E.
  destruct (lstrip_us_suffix l) as [p1 H1].
  remember (lstrip_us l) as A eqn:HA. clear HA.
  destruct (lstrip_us_suffix (rev A)) as [p2 H2].
  remember (lstrip_us (rev A)) as q eqn:Hq. clear Hq.
  assert (A = rev q ++ rev p2)%list as HA'.
  { rewrite <- (rev_involutive A), H2, rev_app_distr. reflexivity. }
  exists (p1 ++ l1)%list, (l2 ++ rev p2)%list.
  rewrite H1, HA', E. repeat rewrite <- app_assoc. reflexivity.
Qed.

Lemma strip_us_ends l :
  hd_error (strip_us l) <> Some "_"%char /\ hd_error (rev (strip_us l)) <> Some "_"%char.
Proof.
  unfold strip_us. rewrite rev_involutive. split; [|apply lstrip_us_head].
  pose proof (lstrip_us_head l) as Hh.
  remember (lstrip_us l) as A eqn:HA. clear HA.
  destruct (lstrip_us_suffix (rev A)) as [p2 H2].
  remember (lstrip_us (rev A)) as q eqn:Hq. clear Hq.
  assert (A = rev q ++ rev p2)%list as HA'.
  { rewrite <- (rev_involutive A), H2, rev_app_distr. reflexivity. }
  rewrite HA' in Hh. destruct (rev q) as [|d r]; simpl in *; [discriminate|exact Hh].
Qed.

Lemma contains_double l :
  contains "__" (string_of_list_ascii l) = true ->
  exists l1 l2, l = (l1 ++ "_"%char :: "_"%char :: l2)%list.
Proof.
  induction l as [|c l IH]; intros H; [discriminate H|].
  change (string_of_list_ascii (c :: l)) with (String c (string_of_list_ascii l)) in H.
  unfold contains in H; fold contains in H. apply orb_prop in H. destruct H as [H|H].
  - cbn [starts_with] in H. apply andb_prop in H. destruct H as [Hc H].
    destruct l as [|d l]; cbn [string_of_list_ascii starts_with] in H; [discriminate H|].
    rewrite andb_true_r in H.
    apply Ascii.eqb_eq in Hc. apply Ascii.eqb_eq in H. subst.
    exists [], l. reflexivity.
  - destruct (IH H) as [l1 [l2 E]]. exists (c :: l1), l2. rewrite E. reflexivity.
Qed.

(** [_generate_plan_name] builds a slug: at most 50 characters, each a
    lowercase ASCII letter, a digit, [_] or [-]; it neither starts nor ends
    with [_] and never holds [__] (each whitespace run becomes one [_],
    and underscores of the objective are dropped). *)
Theorem generate_plan_name_slug o :
  let n := list_ascii_of_string (generate_plan_name o) in
  List.length n <= 50
  /\ Forall (fun c => (is_lower c || is_digit c || Ascii.eqb c "_" || Ascii.eqb c "-") = true) n
  /\ hd_error n <> Some "_"%char
  /\ hd_error (rev n) <> Some "_"%char
  /\ contains "__" (generate_plan_name o) = false.
Proof.
  cbv zeta. unfold generate_plan_name. cbv zeta.
  rewrite list_ascii_of_string_of_list_ascii.
  set (L0 := firstn 50 (list_ascii_of_string o)).
  set (L2 := filter name_char (map py_lower_char L0)).
  assert (HF : Forall (fun c => name_char c = true) L2).
  { apply Forall_forall. intros c Hc. apply filter_In in Hc. tauto. }
  destruct (strip_us_ends (sub_spaces false L2)) as [Hh Ht].
  repeat split; [| | exact Hh | exact Ht |].
  - eapply Nat.le_trans; [apply strip_us_length|].
    eapply Nat.le_trans; [apply sub_spaces_length|].
    eapply Nat.le_trans; [apply filter_length_le|].
    rewrite length_map. apply firstn_le_length.
  - apply Forall_strip_us, Forall_sub_spaces, HF.
  - destruct (contains "__" _) eqn:E; [|reflexivity].
    exfalso. apply contains_double in E.
    apply (strip_us_no_double (sub_spaces false L2)); [|exact E].
    apply (sub_spaces_no_double false L2 HF).
Qed.

(* ------------------------------------------------------------------ *)
(** ** Further proofs about the executor *)

Section ExecutorRuns.

Variable B : Type.
Variable dom_state : B -> option (list (Z * dom_node)).
Variable element_by_index : B -> pyval -> option dom_node.
Variable dispatch : B -> browser_event -> outcome (option string) * B.
Variable sleep : B -> Z -> B.
Variable extract : B -> dict -> outcome artifact * B.
Variable start stop : B -> outcome unit * B.

Local Abbreviation run_step := (run_step B dom_state element_by_index dispatch sleep extract).
Local Abbreviation steps_loop := (steps_loop B dom_state element_by_index dispatch sleep extract).
Local Abbreviation execute_steps := (execute_steps B dom_state element_by_index dispatch sleep extract).
Local Abbreviation execute_plan :=
  (execute_plan B dom_state element_by_index dispatch sleep extract start stop).

Lemma steps_loop_never_raises cfg user total sts :
  forall b arts c e b' l, steps_loop cfg user total sts b arts c <> (Raised e, b', l).
Proof.
  induction sts as [|st rest IH]; intros b arts c e b' l; simpl; [discriminate|].
  destruct (run_step cfg user b st) as [[[a|e1|] b1] l1]; [|discriminate|discriminate].
  specialize (IH b1 (arts ++ a)%list (S c)).
  destruct (steps_loop cfg user total rest b1 (arts ++ a)%list (S c)) as [[r2 b2] l2] eqn:E.
  intros H. inversion H; subst. eapply IH. reflexivity.
Qed.

Lemma finally_stop_returned {A} (r : outcome A) b log x b' l :
  finally_stop B stop r b log = (Returned x, b', l) -> r = Returned x.
Proof.
  unfold finally_stop. destruct (stop b) as [[u|e|] b0]; intros H; inversion H; reflexivity.
Qed.

(** [execute_plan] returns an [ERROR] result only when [browser.start()]
    raised: once the browser is up, a failing step gives a [FAILURE]
    result (never [ERROR]), and an [ERROR] result reports
    [steps_completed = 0]. *)
Theorem execute_plan_error_only_from_start cfg b p user r b' l :
  execute_plan cfg b p user = (Returned r, b', l) ->
  er_status r = ERROR ->
  er_steps_completed r = 0 /\ exists e b1, start b = (Raised e, b1).
Proof.
  unfold execute_plan. intros H Hs.
  destruct (start b) as [[u|e|] b1] eqn:Hst.
  - unfold execute_steps in H.
    destruct (steps_loop cfg user (List.length (steps p)) (steps p) b1 [] 0) as [[[r0|e|] b2] l0] eqn:E.
    + apply finally_stop_returned in H. inversion H; subst.
      destruct (steps_loop_counters B dom_state element_by_index dispatch sleep extract
                  cfg user _ _ _ _ _ _ _ _ E eq_refl) as (_ & _ & [[Hs' _]|[Hs' _]]);
        rewrite Hs' in Hs; discriminate.
    + exfalso. eapply steps_loop_never_raises. exact E.
    + apply finally_stop_returned in H. discriminate.
  - destruct (error_result B dispatch cfg p e b1) as [r1 b2] eqn:Er.
    apply finally_stop_returned in H. subst r1.
    split; [|exists e, b1; reflexivity].
    unfold error_result in Er. destruct (screenshot_on_error cfg).
    + destruct (dispatch b1 TakeScreenshot) as [[[c|]|e2|] b3];
        try (destruct (String.eqb c "")); inversion Er; reflexivity.
    + inversion Er; reflexivity.
  - apply finally_stop_returned in H. discriminate.
Qed.

Lemma run_step_no_retry cfg user b st :
  retry_on_error cfg = false ->
  snd (run_step cfg user b st) = [EvAttempt (sequence_id st) (inject_params (params st) user)].
Proof.
  intros Hr. unfold run_step.
  destruct (execute_action B dom_state element_by_index dispatch sleep extract cfg b (action st)
              (inject_params (params st) user)) as [[a|e|] b1]; [reflexivity| |reflexivity].
  rewrite Hr. reflexivity.
Qed.

Lemma steps_loop_no_retry cfg user total sts :
  retry_on_error cfg = false ->
  forall b arts c r b' l,
    steps_loop cfg user total sts b arts c = (Returned r, b', l) ->
    c <= er_steps_completed r
    /\ map attempt_sid l
       = map (fun st => Some (sequence_id st))
             (firstn (er_steps_completed r - c + match er_status r with FAILURE => 1 | _ => 0 end) sts).
Proof.
  intros Hr. induction sts as [|st rest IH]; intros b arts c r b' l H; simpl in H.
  - inversion H; subst. simpl. split; [lia|]. rewrite Nat.sub_diag. reflexivity.
  - pose proof (run_step_no_retry cfg user b st Hr) as Hl.
    destruct (run_step cfg user b st) as [[[a|e|] b1] l1] eqn:Hst; simpl in Hl; subst l1.
    + destruct (steps_loop cfg user total rest b1 (arts ++ a)%list (S c)) as [[r2 b2] l2] eqn:E.
      inversion H; subst. destruct (IH _ _ _ _ _ _ E) as [Hc Hm].
      split; [lia|]. simpl. rewrite Hm.
      replace (er_steps_completed r - c + match er_status r with FAILURE => 1 | _ => 0 end)
        with (S (er_steps_completed r - S c + match er_status r with FAILURE => 1 | _ => 0 end))
        by (destruct (er_status r); lia).
      reflexivity.
    + inversion H; subst. simpl. split; [lia|]. rewrite Nat.sub_diag. reflexivity.
    + discriminate.
Qed.

(** With [retry_on_error] off, the step loop attempts each step once, in
    plan order, with no pause: its events are exactly one attempt for each
    completed step, plus one for the failing step of a [FAILURE] result. *)
Theorem no_retry_single_attempts cfg b p user r b' l :
  retry_on_error cfg = false ->
  execute_steps cfg b p user = (Returned r, b', l) ->
  map attempt_sid l
  = map (fun st => Some (sequence_id st))
        (firstn (er_steps_completed r + match er_status r with FAILURE => 1 | _ => 0 end) (steps p)).
Proof.
  intros Hr H. unfold execute_steps in H.
  destruct (steps_loop_no_retry cfg user _ _ Hr _ _ _ _ _ _ H) as [_ Hm].
  rewrite Nat.sub_0_r in Hm. exact Hm.
Qed.

End ExecutorRuns.

(* ------------------------------------------------------------------ *)
(** ** Further proofs about parameter injection *)

Lemma fold_inject_one_nil names s : fold_left (inject_one []) names s = s.
Proof. revert s. induction names as [|n names IH]; intros s; simpl; [reflexivity|apply IH]. Qed.

(** [_inject_params] keeps every key in its place and only rewrites string
    values containing ["{param:"] (into strings); other values, and every
    value when no user parameters are given, come back unchanged. *)
Theorem inject_params_shape ps user :
  map fst (inject_params ps user) = map fst ps
  /\ Forall2 (fun kv kv' =>
                kv' = kv
                \/ exists s s', snd kv = VStr s /\ contains "{param:" s = true /\ kv' = (fst kv, VStr s'))
             ps (inject_params ps user)
  /\ inject_params ps [] = ps.
Proof.
  unfold inject_params. split; [|split].
  - rewrite map_map. apply map_ext. intros [k v]. simpl.
    destruct v; try reflexivity. destruct (contains "{param:" s); reflexivity.
  - induction ps as [|[k v] ps IH]; simpl; constructor; [|exact IH].
    destruct v; try (left; reflexivity). simpl.
    destruct (contains "{param:" s) eqn:E; [right|left; reflexivity].
    eexists s, _. split; [reflexivity|]. split; [exact E|reflexivity].
  - induction ps as [|[k v] ps IH]; simpl; [reflexivity|]. rewrite IH.
    destruct v; try reflexivity. simpl. rewrite fold_inject_one_nil.
    destruct (contains "{param:" s); reflexivity.
Qed.

(* ------------------------------------------------------------------ *)
(** ** Further proofs about the planner *)

Lemma str_ltb_irrefl a : str_ltb a a = false.
Proof. induction a as [|c a IH]; simpl; [reflexivity|]. rewrite Nat.ltb_irrefl, Nat.eqb_refl. exact IH. Qed.

Lemma str_ltb_trans a b c : str_ltb a b = true -> str_ltb b c = true -> str_ltb a c = true.
Proof.
  revert b c. induction a as [|x a IH]; intros [|y b] [|z c] H1 H2; simpl in *; try discriminate; auto.
  destruct (Nat.ltb_spec (ascii_code x) (ascii_code y)), (Nat.eqb_spec (ascii_code x) (ascii_code y));
  destruct (Nat.ltb_spec (ascii_code y) (ascii_code z)), (Nat.eqb_spec (ascii_code y) (ascii_code z));
  destruct (Nat.ltb_spec (ascii_code x) (ascii_code z)), (Nat.eqb_spec (ascii_code x) (ascii_code z));
  try discriminate; try lia; eauto.
Qed.

Lemma ascii_code_inj c d : ascii_code c = ascii_code d -> c = d.
Proof.
  unfold ascii_code. intros H. rewrite <- (ascii_nat_embedding c), <- (ascii_nat_embedding d), H.
  reflexivity.
Qed.

Lemma str_ltb_total a b : a <> b -> str_ltb a b = false -> str_ltb b a = true.
Proof.
  revert b. induction a as [|x a IH]; intros [|y b] Hne H; simpl in *; try congruence.
  destruct (Nat.ltb_spec (ascii_code x) (ascii_code y)); [discriminate|].
  destruct (Nat.eqb_spec (ascii_code x) (ascii_code y)) as [E|E].
  - apply ascii_code_inj in E. subst y.
    rewrite Nat.ltb_irrefl, Nat.eqb_refl. apply IH; [congruence|exact H].
  - destruct (Nat.ltb_spec (ascii_code y) (ascii_code x)); [reflexivity|lia].
Qed.

Lemma insert_sorted_HdRel a x l :
  HdRel (fun u v => str_ltb u v = true) a l -> str_ltb a x = true ->
  HdRel (fun u v => str_ltb u v = true) a (insert_sorted x l).
Proof.
  intros H Hx. destruct l as [|y l]; simpl; [constructor; exact Hx|].
  inversion H; subst. destruct (str_ltb y x); constructor; assumption.
Qed.

Lemma insert_sorted_Sorted x l :
  Sorted (fun u v => str_ltb u v = true) l -> ~ In x l ->
  Sorted (fun u v => str_ltb u v = true) (insert_sorted x l).
Proof.
  induction l as [|y l IH]; intros Hs Hn; simpl; [repeat constructor|].
  apply Sorted_inv in Hs. destruct Hs as [Hs Hh].
  destruct (str_ltb y x) eqn:E.
  - constructor; [apply IH; [exact Hs|intros Hi; apply Hn; right; exact Hi]|].
    apply insert_sorted_HdRel; assumption.
  - constructor; [constructor; assumption|]. constructor.
    apply str_ltb_total; [intros ->; apply Hn; left; reflexivity|exact E].
Qed.

Lemma sort_strings_Sorted l :
  NoDup l -> Sorted (fun u v => str_ltb u v = true) (sort_strings l).
Proof.
  induction l as [|x l IH]; intros Hd; simpl; [constructor|].
  inversion Hd; subst. apply insert_sorted_Sorted; [apply IH; assumption|].
  rewrite sort_strings_In. assumption.
Qed.

Lemma StronglySorted_strict_NoDup l :
  StronglySorted (fun u v => str_ltb u v = true) l -> NoDup l.
Proof.
  induction l as [|x l IH]; intros H; constructor; inversion H; subst; [|apply IH; assumption].
  intros Hin. rewrite Forall_forall in H3. specialize (H3 x Hin).
  rewrite str_ltb_irrefl in H3. discriminate.
Qed.

(** [_identify_parameters] returns its names in strictly increasing
    (code point) order, hence without repetitions. *)
Theorem identify_parameters_sorted sts :
  Sorted (fun u v => str_ltb u v = true) (identify_parameters sts)
  /\ NoDup (identify_parameters sts).
Proof.
  assert (Hs : Sorted (fun u v => str_ltb u v = true) (identify_parameters sts)).
  { unfold identify_parameters. apply sort_strings_Sorted. unfold dedup.
    apply dedup_acc_NoDup. constructor. }
  split; [exact Hs|]. apply StronglySorted_strict_NoDup.
  apply Sorted_StronglySorted; [|exact Hs]. intros a b c. apply str_ltb_trans.
Qed.

Lemma all_chars_firstn_run_len l :
  all_chars (fun c => negb (Ascii.eqb c "'"%char))
    (string_of_list_ascii (firstn (run_len (fun c => negb (is_char "'" c)) l) l)) = true.
Proof.
  induction l as [|c l IH]; [reflexivity|].
  cbn [run_len]. unfold is_char. rewrite (Ascii.eqb_sym "'"%char c).
  destruct (Ascii.eqb c "'"%char) eqn:E; cbn [negb firstn string_of_list_ascii all_chars];
    [reflexivity|]. rewrite E. exact IH.
Qed.

Lemma search_quoted_shape fuel prefix s b :
  search_quoted fuel prefix s = Some b ->
  b <> "" /\ all_chars (fun c => negb (Ascii.eqb c "'"%char)) b = true.
Proof.
  revert s. induction fuel as [|fuel IH]; intros s H; simpl in H; [discriminate|].
  match type of H with
  | (if ?cond then _ else _) = _ => destruct cond eqn:E
  end.
  - inversion H; subst. apply andb_prop in E. destruct E as [E _]. apply andb_prop in E.
    destruct E as [_ E]. split; [apply negb_true_iff, String.eqb_neq in E; exact E|].
    apply all_chars_firstn_run_len.
  - destruct s as [|c s]; [discriminate|]. eapply IH. exact H.
Qed.

(** [_extract_param_name] always returns a non-empty name without a single
    quote: the group of [id='...'] or [name='...'], or ["user_input"]. *)
Theorem extract_param_name_shape xpath :
  extract_param_name xpath <> ""
  /\ all_chars (fun c => negb (Ascii.eqb c "'"%char)) (extract_param_name xpath) = true.
Proof.
  unfold extract_param_name.
  destruct (if contains "id=" xpath then search_quoted _ "id='" xpath else None) as [n|] eqn:E1.
  - destruct (contains "id=" xpath); [|discriminate]. eapply search_quoted_shape. exact E1.
  - destruct (if contains "name=" xpath then search_quoted _ "name='" xpath else None) as [n|] eqn:E2.
    + destruct (contains "name=" xpath); [|discriminate]. eapply search_quoted_shape. exact E2.
    + split; [discriminate|reflexivity].
Qed.

(* ------------------------------------------------------------------ *)
(** ** Instances of the further theorems *)

Lemma collected_value_parameterized_witness :
  get_or (convert_params INPUT insc_typed_op (pc_to_dict insc_collector) None) "text" VNone
    = VStr (placeholder "inscricao")
  /\ get_or (convert_params INPUT insc_typed_op (pc_to_dict insc_collector) None) "is_parameterized" VNone
    = VBool true.
Proof.
  apply (collected_value_parameterized insc_collector insc_typed_op None insc_param).
  - vm_compute. discriminate.
  - vm_compute. reflexivity.
  - vm_compute. discriminate.
Defined.

Lemma request_kept_without_setters_witness :
  s_current_input_request (session_run waiting_session [Fail "browser crashed"; Cancel])
  = s_current_input_request waiting_session.
Proof.
  apply (request_kept_without_setters waiting_session [Fail "browser crashed"; Cancel]).
  reflexivity.
Defined.

Lemma sm_cancel_while_waiting_witness :
  let f := fst (sm_request_input_begin one_session_manager "s1" insc_request) in
  let m1 := snd (sm_request_input_begin one_session_manager "s1" insc_request) in
  let m2 := snd (sm_cancel_session m1 "s1") in
  fst (sm_cancel_session m1 "s1") = true
  /\ option_map s_status (sm_get_session m2 "s1") = Some CANCELLED
  /\ fst (sm_provide_input m2 "s1" "0.000.001-8") = false
  /\ fst (sm_request_input_end m2 "s1" f) = Interrupted
  /\ sm_get_pending_input (snd (sm_request_input_end m2 "s1" f)) "s1" = None.
Proof.
  apply (sm_cancel_while_waiting one_session_manager "s1" insc_request "0.000.001-8").
  vm_compute. discriminate.
Defined.

Lemma sm_delete_while_waiting_witness :
  let f := fst (sm_request_input_begin one_session_manager "s1" insc_request) in
  let m1 := snd (sm_request_input_begin one_session_manager "s1" insc_request) in
  let m2 := snd (sm_delete_session m1 "s1") in
  fst (sm_delete_session m1 "s1") = true
  /\ fst (sm_provide_input m2 "s1" "0.000.001-8") = false
  /\ fst (sm_request_input_end m2 "s1" f)
     = Raised (TimeoutError ("Input request timed out for session " ++ "s1")).
Proof.
  apply (sm_delete_while_waiting one_session_manager "s1" insc_request "0.000.001-8").
  vm_compute. discriminate.
Defined.

Lemma execute_plan_error_only_from_start_witness :
  exists r b' l,
    execute_plan nat no_dom no_element flaky_dispatch keep_sleep no_extract failing_start ok_stop
      no_retry_config 0 goto_plan [] = (Returned r, b', l)
    /\ er_status r = ERROR
    /\ er_steps_completed r = 0 /\ exists e b1, failing_start 0 = (Raised e, b1).
Proof.
  do 3 eexists. split; [reflexivity|]. split; [reflexivity|].
  eapply (execute_plan_error_only_from_start nat no_dom no_element flaky_dispatch keep_sleep
            no_extract failing_start ok_stop no_retry_config 0 goto_plan []); reflexivity.
Defined.

Lemma no_retry_single_attempts_witness :
  exists r b' l,
    execute_steps nat no_dom no_element flaky_dispatch keep_sleep no_extract no_retry_config 0
      goto_plan [] = (Returned r, b', l)
    /\ map attempt_sid l
       = map (fun st => Some (sequence_id st))
             (firstn (er_steps_completed r + match er_status r with FAILURE => 1 | _ => 0 end)
                     (steps goto_plan)).
Proof.
  do 3 eexists. split; [reflexivity|].
  eapply (no_retry_single_attempts nat no_dom no_element flaky_dispatch keep_sleep no_extract
            no_retry_config 0 goto_plan []); reflexivity.
Defined.
